(** * Onboarding platform: input controls and animated counter

    A shallow embedding of the four reusable controls of the onboarding
    form (validated text input, calendar picker, file picker, counter
    timer) together with the properties checked against them.

    Conventions of the embedding:
    - JavaScript strings are [string]s of ASCII characters; [length] is
      the number of characters.
    - JavaScript integers are [Z]; [NaN] results of [parseInt] are [None].
    - An exception leaving a handler is the [Throw] completion.
    - React state is an explicit record threaded through the handlers;
      calls of the callbacks given as props are recorded in order. *)

From Stdlib Require Import ZArith List String Ascii Bool Lia QArith Lqa.
Import ListNotations.

Local Open Scope string_scope.
Local Open Scope Z_scope.

(** ** Completions: a handler returns normally or throws *)

Inductive JsError : Type :=
| TypeError (what : string)
| ReferenceError (name : string).

Inductive Completion (A : Type) : Type :=
| Normal (a : A)
| Throw (e : JsError).

Arguments Normal {A} a.
Arguments Throw {A} e.

Definition bindC {A B} (c : Completion A) (k : A -> Completion B) : Completion B :=
  match c with
  | Normal a => k a
  | Throw e => Throw e
  end.

Notation "x <-- c ;; k" := (bindC c (fun x => k))
  (at level 61, c at next level, right associativity).

(** ** The parts of the JavaScript string library the controls use *)

Module JsString.

(** [WhiteSpace] and [LineTerminator] code points below 128: TAB, LF, VT,
    FF, CR and SPACE. Both [String.prototype.trim] and the [\s] class
    use this set. *)
Definition isWhiteSpace (c : ascii) : bool :=
  let n := nat_of_ascii c in
  ((9 <=? n)%nat && (n <=? 13)%nat) || (n =? 32)%nat.

Fixpoint trimStart (s : string) : string :=
  match s with
  | EmptyString => EmptyString
  | String c t => if isWhiteSpace c then trimStart t else s
  end.

(** [trimEnd] drops the trailing run of white space: a character is kept
    when it is not white space or something is kept after it. *)
Fixpoint trimEnd (s : string) : string :=
  match s with
  | EmptyString => EmptyString
  | String c t =>
      match trimEnd t with
      | EmptyString => if isWhiteSpace c then EmptyString else String c EmptyString
      | t' => String c t'
      end
  end.

Definition trim (s : string) : string := trimEnd (trimStart s).

(** Truthiness of a string: the empty string is the only falsy one. *)
Definition truthy (s : string) : bool :=
  match s with EmptyString => false | _ => true end.

Definition jsLength (s : string) : Z := Z.of_nat (String.length s).

Fixpoint allChars (p : ascii -> bool) (s : string) : bool :=
  match s with
  | EmptyString => true
  | String c t => p c && allChars p t
  end.

(** No character of [s] is [sep]. *)
Definition noChar (sep : ascii) (s : string) : bool :=
  allChars (fun c => negb (Ascii.eqb c sep)) s.

(** [s.split(sep)] for a one-character separator: the pieces between the
    separators, at least one piece. *)
Fixpoint split (sep : ascii) (s : string) : list string :=
  match s with
  | EmptyString => [EmptyString]
  | String c t =>
      if Ascii.eqb c sep then EmptyString :: split sep t
      else match split sep t with
           | [] => [String c EmptyString]
           | p :: ps => String c p :: ps
           end
  end.

Fixpoint startsWith (s p : string) : bool :=
  match p, s with
  | EmptyString, _ => true
  | String a p', String b s' => Ascii.eqb a b && startsWith s' p'
  | String _ _, EmptyString => false
  end.

Definition reverse (s : string) : string :=
  string_of_list_ascii (rev (list_ascii_of_string s)).

Definition endsWith (s p : string) : bool :=
  startsWith (reverse s) (reverse p).

(** [s.slice(start)] and [s.substring(start)] for [start >= 0]. *)
Fixpoint slice (s : string) (start : Z) : string :=
  match s with
  | EmptyString => EmptyString
  | String _ t => if start <=? 0 then s else slice t (start - 1)
  end.

(** [n >>> 0]: the number as an unsigned 32-bit integer. *)
Definition toUint32 (n : Z) : Z := n mod 2 ^ 32.

(** [s.lastIndexOf(c)]: index of the last occurrence, or -1. *)
Fixpoint lastIndexOfFrom (c : ascii) (s : string) (i : Z) (found : Z) : Z :=
  match s with
  | EmptyString => found
  | String a t => lastIndexOfFrom c t (i + 1) (if Ascii.eqb a c then i else found)
  end.

Definition lastIndexOf (s : string) (c : ascii) : Z :=
  lastIndexOfFrom c s 0 (-1).

Definition toLowerChar (c : ascii) : ascii :=
  let n := nat_of_ascii c in
  if ((65 <=? n)%nat && (n <=? 90)%nat)%bool then ascii_of_nat (n + 32) else c.

Fixpoint toLowerCase (s : string) : string :=
  match s with
  | EmptyString => EmptyString
  | String c t => String (toLowerChar c) (toLowerCase t)
  end.

Definition isDigit (c : ascii) : bool :=
  let n := nat_of_ascii c in ((48 <=? n)%nat && (n <=? 57)%nat)%bool.

Definition digitValue (c : ascii) : Z := Z.of_nat (nat_of_ascii c) - 48.

(** The longest prefix of decimal digits read as a number, and whether
    there was at least one digit. *)
Fixpoint readDigits (s : string) (acc : Z) (seen : bool) : Z * bool :=
  match s with
  | String c t =>
      if isDigit c then readDigits t (10 * acc + digitValue c) true
      else (acc, seen)
  | EmptyString => (acc, seen)
  end.

(** [parseInt(s, 10)]: leading white space is skipped, one sign is
    accepted, then the longest run of digits is read and whatever follows
    is ignored; without a digit the result is [NaN]. *)
Definition parseInt (s : string) : option Z :=
  let body := trimStart s in
  let '(neg, digits) :=
    match body with
    | String "-" t => (true, t)
    | String "+" t => (false, t)
    | _ => (false, body)
    end in
  match readDigits digits 0 false with
  | (n, true) => Some (if neg : bool then - n else n)
  | (_, false) => None
  end.

Definition digitChar (d : Z) : ascii := ascii_of_nat (Z.to_nat d + 48).

(** Decimal digits of a non-negative integer, most significant first. *)
Fixpoint digitsFuel (fuel : nat) (n : Z) (acc : string) : string :=
  match fuel with
  | O => acc
  | S f =>
      let acc' := String (digitChar (n mod 10)) acc in
      if n <? 10 then acc' else digitsFuel f (n / 10) acc'
  end.

Definition natToString (n : Z) : string :=
  digitsFuel (S (Z.to_nat (Z.log2 n))) n EmptyString.

(** [String(n)] for an integer [n] (below the exponent notation range). *)
Definition numberToString (n : Z) : string :=
  if n <? 0 then String "-" (natToString (- n)) else natToString n.

(** [s.padStart(2, '0')]. *)
Definition padStart2 (s : string) : string :=
  match s with
  | EmptyString => "00"
  | String c EmptyString => String "0" s
  | _ => s
  end.

End JsString.

(** ** TextInput: the rule-based validation engine and its text field *)

Module TextInput.
Import JsString.

Inductive RuleType : Type :=
| required | minLength | maxLength | regex | email | custom.

(** The [value] of a rule is declared [any]; the component reads it as a
    number (length bounds) or as a regular expression, which is
    represented by its [test] function. *)
Inductive RuleValue : Type :=
| VNumber (n : Z)
| VRegExp (test : string -> bool).

Record ValidationRule : Type := {
  type : RuleType;
  value : option RuleValue;
  message : string;
  validator : option (string -> bool)
}.

(** A character matched by [[^\s@]]. *)
Definition emailChar (c : ascii) : bool :=
  negb (isWhiteSpace c) && negb (Ascii.eqb c "@").

(** Some ["."] of [s] has a character after it. *)
Fixpoint dotBeforeLast (s : string) : bool :=
  match s with
  | String c (String _ _ as t) => Ascii.eqb c "." || dotBeforeLast t
  | _ => false
  end.

(** [/^[^\s@]+@[^\s@]+\.[^\s@]+$/.test(text)]: exactly one ["@"], no
    white space, a non-empty local part, and in the domain a ["."] that
    is neither its first nor its last character. *)
Definition emailRegex_test (text : string) : bool :=
  match split "@" text with
  | [local; domain] =>
      truthy local && allChars emailChar local && allChars emailChar domain &&
      match domain with
      | String _ t => dotBeforeLast t
      | EmptyString => false
      end
  | _ => false
  end.

Definition push (validationErrors : list string) (m : string) : list string :=
  validationErrors ++ [m].

(** The body of the [forEach] callback: one [switch] on the rule type. *)
Definition checkRule (text : string) (validationErrors : list string)
    (rule : ValidationRule) : Completion (list string) :=
  match type rule with
  | required =>
      if negb (truthy (trim text))
      then Normal (push validationErrors (message rule))
      else Normal validationErrors
  | minLength =>
      match value rule with
      | Some (VNumber n) =>
          if jsLength text <? n
          then Normal (push validationErrors (message rule))
          else Normal validationErrors
      | _ => Normal validationErrors
      end
  | maxLength =>
      match value rule with
      | Some (VNumber n) =>
          if jsLength text >? n
          then Normal (push validationErrors (message rule))
          else Normal validationErrors
      | _ => Normal validationErrors
      end
  | email =>
      if truthy text && negb (emailRegex_test text)
      then Normal (push validationErrors (message rule))
      else Normal validationErrors
  | regex =>
      match value rule with
      | None => Normal validationErrors
      | Some (VRegExp test) =>
          if truthy text && negb (test text)
          then Normal (push validationErrors (message rule))
          else Normal validationErrors
      | Some (VNumber n) =>
          if negb (n =? 0) && truthy text
          then Throw (TypeError "rule.value.test is not a function")
          else Normal validationErrors
      end
  | custom =>
      match validator rule with
      | Some f =>
          if negb (f text)
          then Normal (push validationErrors (message rule))
          else Normal validationErrors
      | None => Normal validationErrors
      end
  end.

Definition validate (validators : list ValidationRule) (text : string)
    : Completion (list string) :=
  fold_left (fun acc rule => errs <-- acc ;; checkRule text errs rule)
            validators (Normal []).

(** When a rule fails on a text (design section 4.1); a rule whose
    parameter is absent cannot fail. *)
Definition ruleFails (text : string) (rule : ValidationRule) : bool :=
  match type rule, value rule, validator rule with
  | required, _, _ => match trim text with EmptyString => true | _ => false end
  | minLength, Some (VNumber n), _ => jsLength text <? n
  | maxLength, Some (VNumber n), _ => n <? jsLength text
  | email, _, _ => negb (String.eqb text "") && negb (emailRegex_test text)
  | regex, Some (VRegExp test), _ => negb (String.eqb text "") && negb (test text)
  | custom, _, Some f => negb (f text)
  | _, _, _ => false
  end.

(** A [regex] rule carries a regular expression or nothing. *)
Definition wellTyped (rule : ValidationRule) : bool :=
  match type rule, value rule with
  | regex, Some (VNumber _) => false
  | _, _ => true
  end.

Record Props : Type := {
  validators : list ValidationRule;
  externalValue : option string
}.

Record State : Type := {
  internalValue : string;
  isFocused : bool;
  isTouched : bool;
  errors : list string
}.

Inductive Callback : Type :=
| onChangeText (text : string)
| onValidate (isValid : bool).

Definition initialState : State :=
  {| internalValue := ""; isFocused := false; isTouched := false; errors := [] |}.

Definition isControlled (p : Props) : bool :=
  match externalValue p with Some _ => true | None => false end.

Definition currentValue (p : Props) (st : State) : string :=
  match externalValue p with Some v => v | None => internalValue st end.

Definition setInternalValue (v : string) (st : State) : State :=
  {| internalValue := v; isFocused := isFocused st;
     isTouched := isTouched st; errors := errors st |}.

Definition setErrors (e : list string) (st : State) : State :=
  {| internalValue := internalValue st; isFocused := isFocused st;
     isTouched := isTouched st; errors := e |}.

Definition setIsFocused (b : bool) (st : State) : State :=
  {| internalValue := internalValue st; isFocused := b;
     isTouched := isTouched st; errors := errors st |}.

Definition setIsTouched (b : bool) (st : State) : State :=
  {| internalValue := internalValue st; isFocused := isFocused st;
     isTouched := b; errors := errors st |}.

Definition isEmpty (l : list string) : bool :=
  match l with [] => true | _ => false end.

Definition handleChangeText (p : Props) (st : State) (text : string)
    : Completion (State * list Callback) :=
  let st1 := if negb (isControlled p) then setInternalValue text st else st in
  if isTouched st then
    validationErrors <-- validate (validators p) text ;;
    Normal (setErrors validationErrors st1,
            [onChangeText text; onValidate (isEmpty validationErrors)])
  else Normal (st1, [onChangeText text]).

Definition handleFocus (st : State) : State := setIsFocused true st.

Definition handleBlur (p : Props) (st : State)
    : Completion (State * list Callback) :=
  let st1 := setIsTouched true (setIsFocused false st) in
  validationErrors <-- validate (validators p) (currentValue p st) ;;
  Normal (setErrors validationErrors st1, [onValidate (isEmpty validationErrors)]).

Definition hasError (st : State) : bool :=
  isTouched st && (0 <? Z.of_nat (List.length (errors st))).

Definition isSuccess (p : Props) (st : State) : bool :=
  isTouched st && (Z.of_nat (List.length (errors st)) =? 0) &&
  (0 <? jsLength (trim (currentValue p st))).

(** The messages rendered under the input. *)
Definition shownMessages (st : State) : list string :=
  if hasError st then errors st else [].

(** Typing a sequence of texts, one change event each. *)
Fixpoint typeAll (p : Props) (st : State) (texts : list string) : Completion State :=
  match texts with
  | [] => Normal st
  | t :: ts => r <-- handleChangeText p st t ;; typeAll p (fst r) ts
  end.

End TextInput.

(** ** The parts of the JavaScript [Date] object the calendar picker uses

    A [Date] holds a time value in milliseconds, or [NaN]
    ([InvalidDate]). Local time is taken to be UTC. Days are counted in
    the proleptic Gregorian calendar from 1 January 1970. *)

Module JsDate.

Inductive Date : Type :=
| InvalidDate
| DateOf (time : Z).

Definition msPerDay : Z := 86400000.
Definition maxTime : Z := 8640000000000000.

(** Day number of the civil date [y]-[m]-[d], for [m] in 1..12. Years
    are grouped in eras of 400 years that start on 1 March. *)
Definition daysFromCivil (y m d : Z) : Z :=
  let y' := if m <=? 2 then y - 1 else y in
  let era := y' / 400 in
  let yoe := y' - era * 400 in
  let mp := if 2 <? m then m - 3 else m + 9 in
  let doy := (153 * mp + 2) / 5 + d - 1 in
  let doe := yoe * 365 + yoe / 4 - yoe / 100 + doy in
  era * 146097 + doe - 719468.

(** Year of era, from the day of era. *)
Definition yoeOfDoe (doe : Z) : Z :=
  (doe - doe / 1460 + doe / 36524 - doe / 146096) / 365.

(** Civil date [(year, month 1..12, day)] of a day number. *)
Definition civilFromDays (z : Z) : Z * Z * Z :=
  let z' := z + 719468 in
  let era := z' / 146097 in
  let doe := z' - era * 146097 in
  let yoe := yoeOfDoe doe in
  let doy := doe - (365 * yoe + yoe / 4 - yoe / 100) in
  let mp := (5 * doy + 2) / 153 in
  let d := doy - (153 * mp + 2) / 5 + 1 in
  let m := if mp <? 10 then mp + 3 else mp - 9 in
  ((if m <=? 2 then yoe + era * 400 + 1 else yoe + era * 400), m, d).

(** [MakeDay(year, month, date)] with a 0-based month that may lie
    outside 0..11 and a day that may lie outside the month. *)
Definition MakeDay (year month date : Z) : Z :=
  daysFromCivil (year + month / 12) (month mod 12 + 1) 1 + (date - 1).

Definition TimeClip (t : Z) : Date :=
  if Z.abs t <=? maxTime then DateOf t else InvalidDate.

(** [new Date(year, month, day)]; a [NaN] argument gives an invalid date
    and a year in 0..99 means 1900 + year. *)
Definition newDate (year month day : option Z) : Date :=
  match year, month, day with
  | Some y, Some m, Some d =>
      let yr := if (0 <=? y) && (y <=? 99) then 1900 + y else y in
      TimeClip (MakeDay yr m d * msPerDay)
  | _, _, _ => InvalidDate
  end.

Definition getTime (date : Date) : option Z :=
  match date with DateOf t => Some t | InvalidDate => None end.

Definition civilOf (date : Date) : option (Z * Z * Z) :=
  match date with
  | DateOf t => Some (civilFromDays (t / msPerDay))
  | InvalidDate => None
  end.

Definition getFullYear (date : Date) : option Z :=
  option_map (fun c => fst (fst c)) (civilOf date).

Definition getMonth (date : Date) : option Z :=
  option_map (fun c => snd (fst c) - 1) (civilOf date).

Definition getDate (date : Date) : option Z :=
  option_map (fun c => snd c) (civilOf date).

(** [a !== b] on numbers: [NaN] differs from everything. *)
Definition strictNotEqual (a b : option Z) : bool :=
  match a, b with
  | Some x, Some y => negb (x =? y)
  | _, _ => true
  end.

(** [a < b] on dates compares time values; false when either is [NaN]. *)
Definition lessThan (a b : Date) : bool :=
  match a, b with
  | DateOf x, DateOf y => x <? y
  | _, _ => false
  end.

(** [String(n)] of a number that is an integer or [NaN]. *)
Definition numberString (n : option Z) : string :=
  match n with
  | Some z => JsString.numberToString z
  | None => "NaN"
  end.

(** Local midnight of a day number and of a civil day. *)
Definition dayStart (n : Z) : Date := DateOf (n * msPerDay).

Definition midnight (y m d : Z) : Date := dayStart (daysFromCivil y m d).

End JsDate.

(** ** CalendarPicker: the composite date field *)

Module CalendarPicker.
Import JsString JsDate.

Inductive DateFormat : Type :=
| DD_MM_YYYY | MM_DD_YYYY | YYYY_MM_DD.

Definition formatName (format : DateFormat) : string :=
  match format with
  | DD_MM_YYYY => "DD/MM/YYYY"
  | MM_DD_YYYY => "MM/DD/YYYY"
  | YYYY_MM_DD => "YYYY-MM-DD"
  end.

Record Props : Type := {
  value : string;
  format : DateFormat;
  minDate : option Date;
  maxDate : option Date;
  required : bool
}.

Record State : Type := {
  isModalVisible : bool;
  textValue : string;
  error : string;
  isTouched : bool
}.

Inductive Callback : Type :=
| onChange (date : string).

Definition mount (p : Props) : State :=
  {| isModalVisible := false; textValue := value p; error := ""; isTouched := false |}.

Definition formatDate (format : DateFormat) (date : Date) : string :=
  let day := padStart2 (numberString (getDate date)) in
  let month := padStart2 (numberString (option_map (fun m => m + 1) (getMonth date))) in
  let year := numberString (getFullYear date) in
  match format with
  | DD_MM_YYYY => day ++ "/" ++ month ++ "/" ++ year
  | MM_DD_YYYY => month ++ "/" ++ day ++ "/" ++ year
  | YYYY_MM_DD => year ++ "-" ++ month ++ "-" ++ day
  end.

Definition separator (format : DateFormat) : ascii :=
  match format with
  | DD_MM_YYYY | MM_DD_YYYY => "/"
  | YYYY_MM_DD => "-"
  end.

Definition minusOne (n : option Z) : option Z := option_map (fun z => z - 1) n.

(** The three numbers [(day, month, year)] read from the text, or [None]
    when the text does not split in three parts. *)
Definition components (format : DateFormat) (dateString : string)
    : option (option Z * option Z * option Z) :=
  match format with
  | DD_MM_YYYY =>
      match split "/" dateString with
      | [p0; p1; p2] => Some (parseInt p0, minusOne (parseInt p1), parseInt p2)
      | _ => None
      end
  | MM_DD_YYYY =>
      match split "/" dateString with
      | [p0; p1; p2] => Some (parseInt p1, minusOne (parseInt p0), parseInt p2)
      | _ => None
      end
  | YYYY_MM_DD =>
      match split "-" dateString with
      | [p0; p1; p2] => Some (parseInt p2, minusOne (parseInt p1), parseInt p0)
      | _ => None
      end
  end.

(** [components] on the list of parts: the three branches split on the
    separator of the format and differ in the order of the parts. *)
Definition readParts (f : DateFormat) (parts : list string)
    : option (option Z * option Z * option Z) :=
  match parts with
  | [p0; p1; p2] =>
      Some match f with
           | DD_MM_YYYY => (parseInt p0, minusOne (parseInt p1), parseInt p2)
           | MM_DD_YYYY => (parseInt p1, minusOne (parseInt p0), parseInt p2)
           | YYYY_MM_DD => (parseInt p2, minusOne (parseInt p1), parseInt p0)
           end
  | _ => None
  end.

Definition parseDate (format : DateFormat) (dateString : string) : option Date :=
  if negb (truthy (trim dateString)) then None
  else
    match components format dateString with
    | None => None
    | Some (day, month, year) =>
        let date := newDate year month day in
        if match getTime date with None => true | Some _ => false end
           || strictNotEqual (getDate date) day
           || strictNotEqual (getMonth date) month
           || strictNotEqual (getFullYear date) year
        then None
        else Some date
    end.

(** [bound && test(bound)]: the configured bound when it is violated. *)
Definition violated (bound : option Date) (test : Date -> bool) : option Date :=
  match bound with
  | Some b => if test b then Some b else None
  | None => None
  end.

Definition validateDate (p : Props) (dateString : string) : string :=
  if required p && negb (truthy (trim dateString)) then "Date is required"
  else if negb (truthy (trim dateString)) then ""
  else
    match parseDate (format p) dateString with
    | None => "Invalid date format. Use " ++ formatName (format p)
    | Some date =>
        match violated (minDate p) (fun lo => lessThan date lo) with
        | Some lo => "Date must be after " ++ formatDate (format p) lo
        | None =>
            match violated (maxDate p) (fun hi => lessThan hi date) with
            | Some hi => "Date must be before " ++ formatDate (format p) hi
            | None => ""
            end
        end
    end.

Definition setTextValue (v : string) (st : State) : State :=
  {| isModalVisible := isModalVisible st; textValue := v;
     error := error st; isTouched := isTouched st |}.

Definition setError (e : string) (st : State) : State :=
  {| isModalVisible := isModalVisible st; textValue := textValue st;
     error := e; isTouched := isTouched st |}.

Definition setIsTouched (b : bool) (st : State) : State :=
  {| isModalVisible := isModalVisible st; textValue := textValue st;
     error := error st; isTouched := b |}.

Definition setIsModalVisible (b : bool) (st : State) : State :=
  {| isModalVisible := b; textValue := textValue st;
     error := error st; isTouched := isTouched st |}.

(** What a handler leaves behind: the state after the updates it issued,
    the callbacks it called, and the exception it threw, if any. *)
Record Outcome : Type := {
  after : State;
  calls : list Callback;
  thrown : option JsError
}.

(** Values bound to identifiers; only strings and booleans are read. *)
Inductive JsValue : Type :=
| VString (s : string)
| VBoolean (b : bool)
| VObject.

Definition Scope : Type := list (string * JsValue).

Fixpoint lookup (scope : Scope) (name : string) : Completion JsValue :=
  match scope with
  | [] => Throw (ReferenceError name)
  | (n, v) :: rest => if String.eqb n name then Normal v else lookup rest name
  end.

(** The identifiers visible in the body of a handler: the bindings of the
    component function (props, state, memoised helpers, handlers, derived
    values) and those of the module. *)
Definition componentScope (p : Props) (st : State) : Scope :=
  [ ("label", VObject); ("value", VString (value p)); ("onChange", VObject);
    ("format", VString (formatName (format p)));
    ("minDate", VObject); ("maxDate", VObject);
    ("placeholder", VObject); ("disabled", VObject);
    ("required", VBoolean (required p));
    ("isModalVisible", VBoolean (isModalVisible st)); ("setIsModalVisible", VObject);
    ("textValue", VString (textValue st)); ("setTextValue", VObject);
    ("error", VString (error st)); ("setError", VObject);
    ("isTouched", VBoolean (isTouched st)); ("setIsTouched", VObject);
    ("formatDate", VObject); ("parseDate", VObject); ("toCalendarFormat", VObject);
    ("validateDate", VObject); ("handleTextChange", VObject); ("handleBlur", VObject);
    ("handleDateSelect", VObject); ("handleClear", VObject); ("markedDates", VObject);
    ("minDateString", VObject); ("maxDateString", VObject);
    ("hasError", VObject); ("borderColor", VObject);
    ("React", VObject); ("useState", VObject); ("useCallback", VObject);
    ("useMemo", VObject); ("View", VObject); ("Text", VObject);
    ("TextInput", VObject); ("TouchableOpacity", VObject); ("Modal", VObject);
    ("StyleSheet", VObject); ("Platform", VObject); ("Calendar", VObject);
    ("Ionicons", VObject); ("CalendarPicker", VObject); ("styles", VObject) ].

Definition falsy (v : JsValue) : bool :=
  match v with
  | VString s => negb (truthy s)
  | VBoolean b => negb b
  | VObject => false
  end.

(** The text change handler. [validationError] is declared with [const]
    inside the block of the first [if], so that binding ends with the
    block; the second [if] looks the identifier up in the scope of the
    function body. *)
Definition handleTextChange (p : Props) (st : State) (text : string) : Outcome :=
  let body : Scope := ("text", VString text) :: componentScope p st in
  let st1 := setTextValue text st in
  let st2 :=
    if isTouched st
    then (let validationError := validateDate p text in setError validationError st1)
    else st1 in
  match lookup body "validationError" with
  | Throw e => {| after := st2; calls := []; thrown := Some e |}
  | Normal v =>
      {| after := st2;
         calls := if falsy v then [onChange text] else [];
         thrown := None |}
  end.

Definition handleBlur (p : Props) (st : State) : Outcome :=
  let st1 := setIsTouched true st in
  let validationError := validateDate p (textValue st) in
  {| after := setError validationError st1; calls := []; thrown := None |}.

(** The calendar hands over a date string ["YYYY-MM-DD"], which
    [new Date] reads as that day. *)
Definition handleDateSelect (p : Props) (st : State) (selectedDate : Date) : Outcome :=
  let formattedDate := formatDate (format p) selectedDate in
  {| after := setIsModalVisible false
                (setIsTouched true (setError "" (setTextValue formattedDate st)));
     calls := [onChange formattedDate]; thrown := None |}.

Definition handleClear (st : State) : Outcome :=
  {| after := setError "" (setTextValue "" st); calls := [onChange ""]; thrown := None |}.

Definition hasError (st : State) : bool :=
  isTouched st && (0 <? jsLength (error st)).

(** The validation order as the design document words it (section 4.3):
    four checks, tried in this order, of which the first that fails
    gives the message. *)
Inductive Check : Type :=
| checkRequired | checkParseable | checkMinDate | checkMaxDate.

Definition checksInOrder : list Check :=
  [checkRequired; checkParseable; checkMinDate; checkMaxDate].

Definition blank (text : string) : bool := negb (truthy (trim text)).

Definition checkFails (p : Props) (text : string) (c : Check) : bool :=
  match c with
  | checkRequired => required p && blank text
  | checkParseable =>
      negb (blank text) &&
      match parseDate (format p) text with None => true | Some _ => false end
  | checkMinDate =>
      match parseDate (format p) text, minDate p with
      | Some date, Some lo => lessThan date lo
      | _, _ => false
      end
  | checkMaxDate =>
      match parseDate (format p) text, maxDate p with
      | Some date, Some hi => lessThan hi date
      | _, _ => false
      end
  end.

Definition checkMessage (p : Props) (c : Check) : string :=
  match c with
  | checkRequired => "Date is required"
  | checkParseable => "Invalid date format. Use " ++ formatName (format p)
  | checkMinDate =>
      "Date must be after " ++
      formatDate (format p) (match minDate p with Some lo => lo | None => InvalidDate end)
  | checkMaxDate =>
      "Date must be before " ++
      formatDate (format p) (match maxDate p with Some hi => hi | None => InvalidDate end)
  end.

Definition firstFailure (p : Props) (text : string) : string :=
  match find (checkFails p text) checksInOrder with
  | Some c => checkMessage p c
  | None => ""
  end.

End CalendarPicker.

(** ** FilePicker: the bounded file selection set *)

Module FilePicker.
Import JsString.

Record SelectedFile : Type := {
  uri : string;
  name : string;
  size : Z;
  mimeType : option string
}.

(** What the document picker returns for one chosen document; the size
    and the mime type may be missing. *)
Record Asset : Type := {
  assetUri : string;
  assetName : string;
  assetSize : option Z;
  assetMimeType : option string
}.

Inductive PickerResult : Type :=
| Canceled
| Assets (assets : list Asset)
| Rejected.

Record Props : Type := {
  value : list SelectedFile;
  maxFiles : Z;
  maxSizePerFile : Z;
  maxTotalSize : Z;
  allowedTypes : list string;
  required : bool
}.

Definition defaultProps : Props :=
  {| value := []; maxFiles := 3;
     maxSizePerFile := 5 * 1024 * 1024;
     maxTotalSize := 15 * 1024 * 1024;
     allowedTypes := ["*/*"]; required := false |}.

Record State : Type := {
  files : list SelectedFile;
  error : string;
  isTouched : bool
}.

Inductive Effect : Type :=
| onChange (files : list SelectedFile)
| alert (title message : string).

Definition mount (p : Props) : State :=
  {| files := value p; error := ""; isTouched := false |}.

Definition includes (l : list string) (s : string) : bool :=
  existsb (String.eqb s) l.

Fixpoint join (sep : string) (l : list string) : string :=
  match l with
  | [] => ""
  | [x] => x
  | x :: rest => x ++ sep ++ join sep rest
  end.

Definition newline : string := String "010" EmptyString.

Definition getFileExtension (filename : string) : string :=
  toLowerCase (slice filename (toUint32 (lastIndexOf filename "." - 1) + 2)).

Definition optTruthy (s : option string) : bool :=
  match s with Some v => truthy v | None => false end.

Definition isFileTypeAllowed (p : Props) (mime : option string) (filename : string) : bool :=
  if includes (allowedTypes p) "*/*" then true
  else
    (match mime with
     | Some m =>
         truthy m &&
         existsb (fun allowed =>
                    String.eqb allowed m ||
                    (endsWith allowed "/*" &&
                     startsWith m (hd "" (split "/" allowed) ++ "/")))
                 (allowedTypes p)
     | None => false
     end)
    ||
    (truthy filename &&
     existsb (fun allowed =>
                startsWith allowed "." &&
                String.eqb (slice allowed 1) (getFileExtension filename))
             (allowedTypes p)).

Definition totalSize (selectedFiles : list SelectedFile) : Z :=
  fold_left (fun sum file => sum + size file) selectedFiles 0.

Definition lengthOf {A} (l : list A) : Z := Z.of_nat (List.length l).

Section Messages.

(** [formatFileSize] rounds a quotient of floating point logarithms; the
    text it produces is left open. *)
Variable formatFileSize : Z -> string.

Definition maximumMessage (p : Props) : string :=
  "Maximum " ++ numberToString (maxFiles p) ++ " file(s) allowed".

Definition validateFiles (p : Props) (selectedFiles : list SelectedFile) : string :=
  if required p && (lengthOf selectedFiles =? 0) then "At least one file is required"
  else if lengthOf selectedFiles >? maxFiles p then maximumMessage p
  else
    match find (fun file => size file >? maxSizePerFile p) selectedFiles with
    | Some file =>
        name file ++ " exceeds maximum size of " ++ formatFileSize (maxSizePerFile p)
    | None =>
        if totalSize selectedFiles >? maxTotalSize p
        then "Total size " ++ formatFileSize (totalSize selectedFiles) ++
             " exceeds maximum of " ++ formatFileSize (maxTotalSize p)
        else ""
    end.

(** [asset.size && asset.size > maxSizePerFile]. *)
Definition tooLarge (p : Props) (asset : Asset) : bool :=
  match assetSize asset with
  | Some sz => negb (sz =? 0) && (sz >? maxSizePerFile p)
  | None => false
  end.

Definition selectedOf (asset : Asset) : SelectedFile :=
  {| uri := assetUri asset; name := assetName asset;
     size := match assetSize asset with Some sz => sz | None => 0 end;
     mimeType := assetMimeType asset |}.

(** A candidate that survives the loop over [result.assets]. *)
Definition accepted (p : Props) (asset : Asset) : bool :=
  isFileTypeAllowed p (assetMimeType asset) (assetName asset) && negb (tooLarge p asset).

(** The loop over [result.assets]: the files pushed to [newFiles] and the
    alerts shown for the dropped ones. *)
Fixpoint processAssets (p : Props) (assets : list Asset)
    : list SelectedFile * list Effect :=
  match assets with
  | [] => ([], [])
  | asset :: rest =>
      let '(newFiles, alerts) := processAssets p rest in
      if negb (isFileTypeAllowed p (assetMimeType asset) (assetName asset)) then
        (newFiles,
         alert "Invalid File Type"
               (assetName asset ++ " is not an allowed file type." ++ newline ++
                "Allowed: " ++
                join ", " (allowedTypes p)) :: alerts)
      else if tooLarge p asset then
        (newFiles,
         alert "File Too Large"
               (assetName asset ++ " (" ++
                formatFileSize (match assetSize asset with Some sz => sz | None => 0 end) ++
                ") exceeds maximum size of " ++ formatFileSize (maxSizePerFile p)) :: alerts)
      else (selectedOf asset :: newFiles, alerts)
  end.

Definition setError (e : string) (st : State) : State :=
  {| files := files st; error := e; isTouched := isTouched st |}.

Definition setFiles (f : list SelectedFile) (st : State) : State :=
  {| files := f; error := error st; isTouched := isTouched st |}.

Definition setIsTouched (b : bool) (st : State) : State :=
  {| files := files st; error := error st; isTouched := b |}.

(** Whether the picker is opened in multiple-selection mode. *)
Definition multiple (p : Props) (st : State) : bool :=
  lengthOf (files st) + 1 <? maxFiles p.

(** [handlePickFiles], given what the document picker answers if it is
    opened. *)
Definition handlePickFiles (p : Props) (st : State) (result : PickerResult)
    : State * list Effect :=
  let st1 := setIsTouched true st in
  if lengthOf (files st) >=? maxFiles p then
    (setError (maximumMessage p) st1,
     [alert "Limit Reached"
            ("You can only select up to " ++ numberToString (maxFiles p) ++ " file(s)")])
  else
    match result with
    | Rejected => (st1, [alert "Error" "Failed to pick files. Please try again."])
    | Canceled => (st1, [])
    | Assets assets =>
        let '(newFiles, alerts) := processAssets p assets in
        if lengthOf newFiles =? 0 then (st1, alerts)
        else
          let updatedFiles := firstn (Z.to_nat (maxFiles p)) (files st ++ newFiles)%list in
          let validationError := validateFiles p updatedFiles in
          if truthy validationError
          then (setError validationError st1, alerts)
          else (setFiles updatedFiles (setError validationError st1),
                (alerts ++ [onChange updatedFiles])%list)
    end.

(** [files.filter((_, i) => i !== index)]. *)
Fixpoint removeAt {A} (index : nat) (l : list A) : list A :=
  match l, index with
  | [], _ => []
  | _ :: t, O => t
  | x :: t, S i => x :: removeAt i t
  end.

Definition handleRemoveFile (p : Props) (st : State) (index : nat)
    : State * list Effect :=
  let updatedFiles := removeAt index (files st) in
  (setError (validateFiles p updatedFiles) (setFiles updatedFiles st),
   [onChange updatedFiles]).

Definition handleClearAll (st : State) : State * list Effect :=
  (setError "" (setFiles [] st), [onChange []]).

End Messages.

Definition hasError (st : State) : bool :=
  isTouched st && (0 <? jsLength (error st)).

End FilePicker.

(** ** CounterTimer: the animated counter

    Numbers are rationals. The shared value [progress] and the animation
    attached to it live on the UI thread; the React state and the
    [onComplete] prop live on the JavaScript thread. A call made through
    [runOnJS] is queued and runs when the JavaScript thread takes it. *)

Module CounterTimer.

Local Open Scope Q_scope.

Inductive TimerState : Type :=
| idle | running | paused | completed.

Inductive EasingName : Type :=
| linear | easeInOut | easeOut.

Record Props : Type := {
  targetNumber : Q;
  durationSec : Q;
  hasOnComplete : bool;
  easing : EasingName
}.

(** A timing animation attached to [progress]. [run] numbers the calls of
    [withTiming]; it is bookkeeping of the model and no handler reads it. *)
Record Animation : Type := {
  fromValue : Q;
  toValue : Q;
  duration : Q;
  easingOf : EasingName;
  elapsed : Q;
  run : nat
}.

(** A call queued by [runOnJS] in the callback of animation [run]. *)
Inductive Job : Type :=
| jobSetState (s : TimerState) (run : nat)
| jobOnComplete (run : nat).

(** One call of [onComplete]: the animation it comes from and the newest
    animation started when it is made. *)
Record Notification : Type := {
  ofRun : nat;
  latestRun : nat
}.

Record Counter : Type := {
  state : TimerState;
  progress : Q;
  animation : option Animation;
  jsQueue : list Job;
  notifications : list Notification;
  started : nat
}.

Definition mount : Counter :=
  {| state := idle; progress := 0; animation := None; jsQueue := [];
     notifications := []; started := O |}.

Definition qmax (a b : Q) : Q := if Qle_bool a b then b else a.
Definition qmin (a b : Q) : Q := if Qle_bool a b then a else b.

(** [x || fallback] on numbers. *)
Definition orElse (x fallback : Q) : Q := if Qeq_bool x 0 then fallback else x.

Definition validTarget (p : Props) : Q := qmax 0 (orElse (targetNumber p) 0).

Definition validDuration (p : Props) : Q :=
  qmax (1 # 10) (qmin 3600 (orElse (durationSec p) 1)).

Section Easing.

(** [Easing.ease], a cubic Bezier curve. *)
Variable ease : Q -> Q.

Definition easingFunctions (name : EasingName) (t : Q) : Q :=
  match name with
  | linear => t
  | easeInOut =>
      if Qle_bool (1 # 2) t
      then 1 - ease ((1 - t) * 2) / 2
      else ease (t * 2) / 2
  | easeOut => 1 - ease (1 - t)
  end.

Definition setState (s : TimerState) (c : Counter) : Counter :=
  {| state := s; progress := progress c; animation := animation c;
     jsQueue := jsQueue c; notifications := notifications c; started := started c |}.

(** [progress.value = v]: the value is stored and an animation in flight
    is replaced, its callback being called with [finished = false]. *)
Definition assignValue (v : Q) (c : Counter) : Counter :=
  {| state := state c; progress := v; animation := None;
     jsQueue := jsQueue c; notifications := notifications c; started := started c |}.

(** [cancelAnimation(progress)]: the value stays where it is and the
    callback is called with [finished = false], which does nothing. *)
Definition cancelAnimation (c : Counter) : Counter :=
  {| state := state c; progress := progress c; animation := None;
     jsQueue := jsQueue c; notifications := notifications c; started := started c |}.

(** [progress.value = withTiming(toValue, {duration, easing}, callback)]. *)
Definition withTiming (target ms : Q) (name : EasingName) (c : Counter) : Counter :=
  {| state := state c; progress := progress c;
     animation := Some {| fromValue := progress c; toValue := target; duration := ms;
                          easingOf := name; elapsed := 0; run := started c |};
     jsQueue := jsQueue c; notifications := notifications c;
     started := S (started c) |}.

Definition handleStart (p : Props) (c : Counter) : Counter :=
  match state c with
  | idle | completed =>
      withTiming 1 (validDuration p * 1000) (easing p)
        (assignValue 0 (setState running c))
  | paused =>
      let c1 := setState running c in
      let remainingProgress := 1 - progress c1 in
      let remainingDuration := validDuration p * 1000 * remainingProgress in
      withTiming 1 remainingDuration (easing p) c1
  | running => c
  end.

Definition handleStop (c : Counter) : Counter :=
  match state c with
  | running => cancelAnimation (setState paused c)
  | _ => c
  end.

Definition handleReset (c : Counter) : Counter :=
  assignValue 0 (cancelAnimation (setState idle c)).

Definition handleRestart (p : Props) (c : Counter) : Counter :=
  withTiming 1 (validDuration p * 1000) (easing p)
    (assignValue 0 (setState running (cancelAnimation c))).

(** The callback of [withTiming] called with [finished = true]. *)
Definition finishedCallback (p : Props) (r : nat) : list Job :=
  jobSetState completed r :: (if hasOnComplete p then [jobOnComplete r] else []).

(** A frame on the UI thread, [dt] milliseconds after the previous one. *)
Definition frame (p : Props) (dt : Q) (c : Counter) : Counter :=
  match animation c with
  | None => c
  | Some a =>
      let t := elapsed a + dt in
      if Qle_bool (duration a) t then
        {| state := state c; progress := toValue a; animation := None;
           jsQueue := (jsQueue c ++ finishedCallback p (run a))%list;
           notifications := notifications c; started := started c |}
      else
        {| state := state c;
           progress := fromValue a +
                       (toValue a - fromValue a) * easingFunctions (easingOf a) (t / duration a);
           animation := Some {| fromValue := fromValue a; toValue := toValue a;
                                duration := duration a; easingOf := easingOf a;
                                elapsed := t; run := run a |};
           jsQueue := jsQueue c; notifications := notifications c;
           started := started c |}
  end.

(** The JavaScript thread takes the oldest queued call. *)
Definition runQueued (c : Counter) : Counter :=
  match jsQueue c with
  | [] => c
  | jobSetState s _ :: rest =>
      {| state := s; progress := progress c; animation := animation c;
         jsQueue := rest; notifications := notifications c; started := started c |}
  | jobOnComplete r :: rest =>
      {| state := state c; progress := progress c; animation := animation c;
         jsQueue := rest;
         notifications := (notifications c ++
                           [{| ofRun := r; latestRun := Nat.pred (started c) |}])%list;
         started := started c |}
  end.

Inductive Event : Type :=
| start | stop | reset | restart
| tick (dt : Q)
| deliver.

Definition step (p : Props) (c : Counter) (e : Event) : Counter :=
  match e with
  | start => handleStart p c
  | stop => handleStop c
  | reset => handleReset c
  | restart => handleRestart p c
  | tick dt => frame p dt c
  | deliver => runQueued c
  end.

Definition runEvents (p : Props) (c : Counter) (events : list Event) : Counter :=
  fold_left (step p) events c.

(** The value sampled for display, before formatting. *)
Definition currentValue (p : Props) (c : Counter) : Q := progress c * validTarget p.

(** A notification is stale when a newer animation had been started by
    the time it was delivered. *)
Definition stale (n : Notification) : bool := negb (Nat.eqb (ofRun n) (latestRun n)).

End Easing.

End CounterTimer.

(** * The rest of the controls, the service and the worker *)

(** ** TextInput: events and border colour *)

Module TextInputEvents.
Import JsString TextInput.

Inductive Event : Type :=
| change (text : string)
| focus
| blur.

Definition step (p : Props) (st : State) (e : Event)
    : Completion (State * list Callback) :=
  match e with
  | change text => handleChangeText p st text
  | focus => Normal (handleFocus st, [])
  | blur => handleBlur p st
  end.

(** The events of a session, one after the other; the callbacks called
    are collected in order. *)
Fixpoint run (p : Props) (st : State) (events : list Event)
    : Completion (State * list Callback) :=
  match events with
  | [] => Normal (st, [])
  | e :: rest =>
      r <-- step p st e ;;
      r' <-- run p (fst r) rest ;;
      Normal (fst r', (snd r ++ snd r')%list)
  end.

Definition getBorderColor (disabled : bool) (p : Props) (st : State) : string :=
  if disabled then "#E0E0E0"
  else if hasError st then "#F44336"
  else if isSuccess p st then "#4CAF50"
  else if isFocused st then "#2196F3"
  else "#BDBDBD".

End TextInputEvents.

(** The text typed last, or [v] when nothing was typed. *)
Definition lastTyped (v : string) (events : list TextInputEvents.Event) : string :=
  fold_left (fun acc e => match e with TextInputEvents.change t => t | _ => acc end)
            events v.

(** The messages of the rules that fail on a text. *)
Definition failingMessages (rules : list TextInput.ValidationRule) (text : string)
    : list string :=
  map TextInput.message (filter (TextInput.ruleFails text) rules).

(** What holds of the state of a field that owns its value: once touched
    its errors are those of its value, before that it has none. *)
Definition sessionInvariant (p : TextInput.Props) (st : TextInput.State) : Prop :=
  TextInput.errors st =
  if TextInput.isTouched st
  then failingMessages (TextInput.validators p) (TextInput.internalValue st)
  else [].

(** ** CalendarPicker: what the calendar modal is given *)

Module CalendarModal.
Import JsString JsDate CalendarPicker.

Definition toCalendarFormat (date : Date) : string :=
  let year := numberString (getFullYear date) in
  let month := padStart2 (numberString (option_map (fun m => m + 1) (getMonth date))) in
  let day := padStart2 (numberString (getDate date)) in
  year ++ "-" ++ month ++ "-" ++ day.

(** The object of marked dates has no key or the single key of the
    selected day. *)
Definition markedDates (p : Props) (st : State) : option string :=
  if negb (truthy (textValue st)) then None
  else
    match parseDate (format p) (textValue st) with
    | None => None
    | Some date => Some (toCalendarFormat date)
    end.

End CalendarModal.

(** ** FilePicker: totals and limits *)

Module FileLimits.
Import JsString FilePicker.

(** The count and size limits of a selection. *)
Definition withinLimits (p : Props) (selectedFiles : list SelectedFile) : Prop :=
  lengthOf selectedFiles <= maxFiles p /\
  Forall (fun file => size file <= maxSizePerFile p) selectedFiles /\
  totalSize selectedFiles <= maxTotalSize p.

End FileLimits.

(** ** CounterTimer: bookkeeping over runs of events *)

Module CounterRuns.
Import CounterTimer.

(** The animations whose completion is still queued for [onComplete]. *)
Fixpoint queuedCompletions (queue : list Job) : list nat :=
  match queue with
  | [] => []
  | jobOnComplete r :: rest => r :: queuedCompletions rest
  | jobSetState _ _ :: rest => queuedCompletions rest
  end.

(** The animations notified or queued to be notified. *)
Definition settledRuns (c : Counter) : list nat :=
  (map ofRun (notifications c) ++ queuedCompletions (jsQueue c))%list.

Definition flyingRun (c : Counter) : list nat :=
  match animation c with Some a => [run a] | None => [] end.

(** No animation is counted twice and all were started. *)
Definition runsInvariant (c : Counter) : Prop :=
  NoDup (settledRuns c ++ flyingRun c) /\
  Forall (fun r => (r < started c)%nat) (settledRuns c ++ flyingRun c).

(** Every frame interval of the events is zero or more. *)
Definition forwardInTime (events : list Event) : Prop :=
  Forall (fun e => match e with tick dt => (0 <= dt)%Q | _ => True end) events.

(** What [idle] and [paused] guarantee, and what the queue holds. *)
Definition restingInvariant (c : Counter) : Prop :=
  (state c = idle -> progress c = 0%Q /\ animation c = None) /\
  (state c = paused -> animation c = None) /\
  Forall (fun j => match j with jobSetState s _ => s = completed | _ => True end)
         (jsQueue c).

(** With linear easing: the progress is a fraction, and an animation in
    flight leads from a fraction to 1 and has brought the progress to
    where its elapsed time puts it. *)
Definition linearInvariant (c : Counter) : Prop :=
  (0 <= progress c /\ progress c <= 1)%Q /\
  match animation c with
  | None => True
  | Some a =>
      toValue a = 1%Q /\ easingOf a = linear /\
      (0 <= fromValue a)%Q /\ (fromValue a <= 1)%Q /\ (0 <= elapsed a)%Q /\
      (progress c == fromValue a + (toValue a - fromValue a) * (elapsed a / duration a))%Q
  end.

End CounterRuns.

(** ** OnboardingService: validation before submission *)

Module OnboardingService.
Import JsString.

Record DocumentFile : Type := {
  docName : string;
  docSize : Z;
  docMimeType : option string;
  docUri : string;
  docBase64 : option string
}.

Record OnboardingSubmitRequest : Type := {
  name : string;
  email : string;
  startDate : string;
  documents : list DocumentFile
}.

(** [!s || s.trim().length === 0]. *)
Definition missing (s : string) : bool :=
  negb (truthy s) || (jsLength (trim s) =? 0).

Definition validateOnboardingData (data : OnboardingSubmitRequest)
    : bool * list string :=
  let errors0 := if missing (name data) then ["Name is required"] else [] in
  let errors1 :=
    if missing (email data) then (errors0 ++ ["Email is required"])%list
    else if negb (TextInput.emailRegex_test (email data))
         then (errors0 ++ ["Invalid email format"])%list
         else errors0 in
  let errors2 :=
    if missing (startDate data) then (errors1 ++ ["Start date is required"])%list
    else errors1 in
  let errors3 :=
    if Nat.eqb (List.length (documents data)) 0
    then (errors2 ++ ["At least one document is required"])%list
    else errors2 in
  (Nat.eqb (List.length errors3) 0, errors3).

End OnboardingService.

(** ** JSON values, as the worker and the API client see them

    Numbers are the integers. *)

Module Json.
Import JsString.

#[local] Unset Elimination Schemes.

Inductive Json : Type :=
| JNull
| JBool (b : bool)
| JNumber (z : Z)
| JString (s : string)
| JArray (items : list Json)
| JObject (fields : list (string * Json)).

#[local] Set Elimination Schemes.

(** The binding of a key that [JSON.parse] keeps: the last one. *)
Definition lookupLast (key : string) (fields : list (string * Json)) : option Json :=
  fold_left (fun acc kv => if String.eqb (fst kv) key then Some (snd kv) else acc)
            fields None.

(** [data.key] for the keys the worker reads (none of them is [length]):
    reading from [null] throws, other values that are not objects have
    no such property. [None] is [undefined]. *)
Definition getField (data : Json) (key : string) : Completion (option Json) :=
  match data with
  | JNull => Throw (TypeError "Cannot read properties of null")
  | JObject fields => Normal (lookupLast key fields)
  | _ => Normal None
  end.

Definition jsonTruthy (v : option Json) : bool :=
  match v with
  | None | Some JNull => false
  | Some (JBool b) => b
  | Some (JNumber z) => negb (z =? 0)
  | Some (JString s) => truthy s
  | Some (JArray _) | Some (JObject _) => true
  end.

(** An object literal written with values that may be [undefined]:
    [JSON.stringify] leaves those keys out. *)
Fixpoint object (fields : list (string * option Json)) : list (string * Json) :=
  match fields with
  | [] => []
  | (k, Some v) :: rest => (k, v) :: object rest
  | (_, None) :: rest => object rest
  end.

Fixpoint take (n : nat) (s : string) : string :=
  match n, s with
  | S n', String c t => String c (take n' t)
  | _, _ => EmptyString
  end.

End Json.

(** ** The worker

    The key-value store is a list of bindings, the newest first. A value
    written as [JSON.stringify(v)] is kept as [v]; a value written as a
    plain text is kept as that text. Writes are taken to succeed. *)

Module Worker.
Import JsString Json.

Inductive KvValue : Type :=
| KvJson (v : Json)
| KvText (s : string).

Definition Kv : Type := list (string * KvValue).

Fixpoint kvGet (kv : Kv) (key : string) : option KvValue :=
  match kv with
  | [] => None
  | (k, v) :: rest => if String.eqb k key then Some v else kvGet rest key
  end.

Definition kvPut (kv : Kv) (key : string) (v : KvValue) : Kv := (key, v) :: kv.

Record Response : Type := {
  status : Z;
  body : Json
}.

Definition isNonEmptyArray (v : option Json) : bool :=
  match v with
  | Some (JArray (_ :: _)) => true
  | _ => false
  end.

(** The four checks of [validateOnboardingData], each pushing its
    message to the errors collected so far. *)
Definition checkName (field : option Json) (errors : list string) : list string :=
  match field with
  | Some (JString s) =>
      if negb (truthy s) || (jsLength (trim s) =? 0)
      then (errors ++ ["Name is required"])%list else errors
  | _ => (errors ++ ["Name is required"])%list
  end.

Definition checkEmail (field : option Json) (errors : list string) : list string :=
  match field with
  | Some (JString s) =>
      if negb (truthy s) then (errors ++ ["Email is required"])%list
      else if negb (TextInput.emailRegex_test s)
           then (errors ++ ["Invalid email format"])%list
           else errors
  | _ => (errors ++ ["Email is required"])%list
  end.

Definition checkStartDate (field : option Json) (errors : list string) : list string :=
  match field with
  | Some (JString s) =>
      if negb (truthy s) then (errors ++ ["Start date is required"])%list else errors
  | _ => (errors ++ ["Start date is required"])%list
  end.

Definition checkDocuments (field : option Json) (errors : list string) : list string :=
  if isNonEmptyArray field then errors
  else (errors ++ ["At least one document is required"])%list.

Definition validateOnboardingData (data : Json) : Completion (bool * list string) :=
  nameField <-- getField data "name" ;;
  emailField <-- getField data "email" ;;
  startDateField <-- getField data "startDate" ;;
  documentsField <-- getField data "documents" ;;
  let errors :=
    checkDocuments documentsField
      (checkStartDate startDateField
         (checkEmail emailField (checkName nameField []))) in
  Normal (Nat.eqb (List.length errors) 0, errors).

(** No message of the list is empty. *)
Definition nonEmptyMessages (errors : list string) : Prop :=
  Forall (fun e => truthy e = true) errors.

Definition truncatedMark : string := "...[truncated]".

(** [doc.base64 ? doc.base64.substring(0, 100) + '...[truncated]' : undefined]. *)
Definition storedBase64 (v : option Json) : Completion (option Json) :=
  if jsonTruthy v then
    match v with
    | Some (JString s) => Normal (Some (JString (take 100 s ++ truncatedMark)))
    | _ => Throw (TypeError "doc.base64.substring is not a function")
    end
  else Normal None.

(** The callback of [data.documents.map]. *)
Definition storedDocument (doc : Json) : Completion Json :=
  n <-- getField doc "name" ;;
  sz <-- getField doc "size" ;;
  mt <-- getField doc "mimeType" ;;
  b <-- getField doc "base64" ;;
  b64 <-- storedBase64 b ;;
  Normal (JObject (object [("name", n); ("size", sz); ("mimeType", mt); ("base64", b64)])).

Fixpoint mapDocuments (docs : list Json) : Completion (list Json) :=
  match docs with
  | [] => Normal []
  | doc :: rest =>
      d <-- storedDocument doc ;;
      ds <-- mapDocuments rest ;;
      Normal (d :: ds)
  end.

Definition failure (code : Z) (message : string) : Response :=
  {| status := code;
     body := JObject [("success", JBool false); ("error", JString message)] |}.

Definition internalError : Response := failure 500 "Internal server error".

(** [`email:${data.email}`] for an e-mail that passed validation. *)
Definition emailKey (emailField : option Json) : string :=
  "email:" ++ match emailField with Some (JString s) => s | _ => "" end.

(** [handleSubmitOnboarding]: [parsed] is what [request.json()] gives, or
    nothing when the body is not JSON; [id] and [now] are what
    [generateId()] and [new Date().toISOString()] give. *)
Definition handleSubmitOnboarding (parsed : option Json) (id now : string) (kv : Kv)
    : Response * Kv :=
  match parsed with
  | None => (internalError, kv)
  | Some data =>
      match validateOnboardingData data with
      | Throw _ => (internalError, kv)
      | Normal (false, errors) => (failure 400 (FilePicker.join ", " errors), kv)
      | Normal (true, _) =>
          let stored :=
            nameField <-- getField data "name" ;;
            emailField <-- getField data "email" ;;
            startDateField <-- getField data "startDate" ;;
            documentsField <-- getField data "documents" ;;
            docs <-- mapDocuments
                       match documentsField with Some (JArray l) => l | _ => [] end ;;
            submittedAt <-- getField data "submittedAt" ;;
            Normal (emailField,
                    JObject (object
                      [("id", Some (JString id)); ("name", nameField);
                       ("email", emailField); ("startDate", startDateField);
                       ("documents", Some (JArray docs));
                       ("createdAt", Some (JString now));
                       ("updatedAt", Some (JString now));
                       ("submittedAt",
                        if jsonTruthy submittedAt then submittedAt
                        else Some (JString now))])) in
          match stored with
          | Throw _ => (internalError, kv)
          | Normal (emailField, onboardingData) =>
              let kv1 := kvPut kv id (KvJson onboardingData) in
              let kv2 := kvPut kv1 (emailKey emailField) (KvText id) in
              ({| status := 201;
                  body := JObject [("success", JBool true); ("data", onboardingData);
                                   ("message", JString "Onboarding submitted successfully")] |},
               kv2)
          end
      end
  end.

Section Parser.

(** [JSON.parse] on a text that was not written by [JSON.stringify];
    [None] when it throws. *)
Variable jsonParse : string -> option Json.

Definition handleGetOnboarding (id : string) (kv : Kv) : Response :=
  match kvGet kv id with
  | None => failure 404 "Onboarding data not found"
  | Some (KvJson v) =>
      {| status := 200; body := JObject [("success", JBool true); ("data", v)] |}
  | Some (KvText s) =>
      if negb (truthy s) then failure 404 "Onboarding data not found"
      else match jsonParse s with
           | Some v =>
               {| status := 200; body := JObject [("success", JBool true); ("data", v)] |}
           | None => internalError
           end
  end.

(** [path.split('/').pop()]. *)
Definition lastSegment (path : string) : string :=
  last (split "/" path) "".

(** The routing of [fetch] on the method and the path of the request. *)
Definition fetch (method path : string) (parsed : option Json) (id now : string)
    (kv : Kv) : Response * Kv :=
  if String.eqb method "OPTIONS" then ({| status := 200; body := JNull |}, kv)
  else if String.eqb path "/api/onboard" && String.eqb method "POST"
  then handleSubmitOnboarding parsed id now kv
  else if startsWith path "/api/onboard/" && String.eqb method "GET"
  then (handleGetOnboarding (lastSegment path) kv, kv)
  else if String.eqb path "/health" || String.eqb path "/"
  then ({| status := 200;
           body := JObject [("status", JString "ok");
                            ("service", JString "Onboarding Platform API");
                            ("version", JString "1.0.0");
                            ("timestamp", JString now)] |}, kv)
  else (failure 404 "Not found", kv).

End Parser.

End Worker.

(** ** The API client: errors and the submission *)

Module ApiClient.
Import JsString Json.

Inductive AxiosError : Type :=
| responded (status : Z) (data : Json)
| noResponse (message : string)
| notSent (message : string).

Record ApiError : Type := {
  message : option Json;
  code : string
}.

(** [a || b] on values. *)
Definition orValue (a b : option Json) : option Json :=
  if jsonTruthy a then a else b.

(** [data?.key]. *)
Definition optionalField (data : Json) (key : string) : option Json :=
  match getField data key with
  | Normal v => v
  | Throw _ => None
  end.

Definition handleError (error : AxiosError) : ApiError :=
  match error with
  | responded status data =>
      {| message := orValue (optionalField data "message")
                      (orValue (optionalField data "error")
                               (Some (JString "Server error occurred")));
         code := "HTTP_" ++ numberToString status |}
  | noResponse _ =>
      {| message := Some (JString
           "No response from server. Please check your internet connection.");
         code := "NETWORK_ERROR" |}
  | notSent m =>
      {| message := orValue (Some (JString m))
                      (Some (JString "An unexpected error occurred"));
         code := "UNKNOWN_ERROR" |}
  end.

(** What [apiClient.post] gives for a response of the worker: the body
    for a status from 200 to 299, otherwise the error made of it. *)
Definition received (r : Worker.Response) : Json + ApiError :=
  if (200 <=? Worker.status r) && (Worker.status r <? 300)
  then inl (Worker.body r)
  else inr (handleError (responded (Worker.status r) (Worker.body r))).

(** What [submitOnboarding] returns for what [apiClient.post] gave. *)
Definition submitResult (r : Json + ApiError) : Json :=
  match r with
  | inl response => response
  | inr apiError =>
      JObject (object [("success", Some (JBool false)); ("error", message apiError)])
  end.

(** The JSON of the payload of [submitOnboarding]; [encoded] gives the
    base64 text of a document, or nothing when reading it failed. *)
Definition documentJson (encoded : OnboardingService.DocumentFile -> option string)
    (doc : OnboardingService.DocumentFile) : Json :=
  JObject (object
    [("name", Some (JString (OnboardingService.docName doc)));
     ("size", Some (JNumber (OnboardingService.docSize doc)));
     ("mimeType", option_map JString (OnboardingService.docMimeType doc));
     ("uri", Some (JString (OnboardingService.docUri doc)));
     ("base64", match encoded doc with
                | Some b => Some (JString b)
                | None => option_map JString (OnboardingService.docBase64 doc)
                end)]).

Definition payload (encoded : OnboardingService.DocumentFile -> option string)
    (submittedAt : string) (data : OnboardingService.OnboardingSubmitRequest) : Json :=
  JObject
    [("name", JString (OnboardingService.name data));
     ("email", JString (OnboardingService.email data));
     ("startDate", JString (OnboardingService.startDate data));
     ("documents", JArray (map (documentJson encoded) (OnboardingService.documents data)));
     ("submittedAt", JString submittedAt)].

End ApiClient.

(** * Sample configurations

    The configurations and inputs the properties below are evaluated on. *)

(** The validators of the name field of the onboarding screen. *)
Definition nameValidators : list TextInput.ValidationRule :=
  [ {| TextInput.type := TextInput.required; TextInput.value := None;
       TextInput.message := "Name is required"; TextInput.validator := None |};
    {| TextInput.type := TextInput.minLength;
       TextInput.value := Some (TextInput.VNumber 2);
       TextInput.message := "Name must be at least 2 characters";
       TextInput.validator := None |};
    {| TextInput.type := TextInput.maxLength;
       TextInput.value := Some (TextInput.VNumber 100);
       TextInput.message := "Name must not exceed 100 characters";
       TextInput.validator := None |} ].

Definition requiredRule (m : string) : TextInput.ValidationRule :=
  {| TextInput.type := TextInput.required; TextInput.value := None;
     TextInput.message := m; TextInput.validator := None |}.

(** A field whose only rule is [required] and whose value is the empty
    string, controlled by the parent or not. *)
Definition requiredField (m : string) (controlled : bool) : TextInput.Props :=
  {| TextInput.validators := [requiredRule m];
     TextInput.externalValue := if controlled then Some "" else None |}.

(** A date field for the days of 2025 in [DD/MM/YYYY]. *)
Definition year2025 : CalendarPicker.Props :=
  {| CalendarPicker.value := ""; CalendarPicker.format := CalendarPicker.DD_MM_YYYY;
     CalendarPicker.minDate := Some (JsDate.midnight 2025 1 1);
     CalendarPicker.maxDate := Some (JsDate.midnight 2025 12 31);
     CalendarPicker.required := false |}.

Definition smallFile (n : string) : FilePicker.Asset :=
  {| FilePicker.assetUri := "file:///" ++ n; FilePicker.assetName := n;
     FilePicker.assetSize := Some 1024; FilePicker.assetMimeType := Some "image/png" |}.

Definition fourCandidates : list FilePicker.Asset :=
  [smallFile "a.png"; smallFile "b.png"; smallFile "c.png"; smallFile "d.png"].

(** A picker that takes images and PDF documents. *)
Definition imagesAndPdf : FilePicker.Props :=
  {| FilePicker.value := []; FilePicker.maxFiles := 3;
     FilePicker.maxSizePerFile := 5 * 1024 * 1024;
     FilePicker.maxTotalSize := 15 * 1024 * 1024;
     FilePicker.allowedTypes := ["image/*"; ".pdf"]; FilePicker.required := false |}.

Definition hugeFile : FilePicker.Asset :=
  {| FilePicker.assetUri := "file:///huge.png"; FilePicker.assetName := "huge.png";
     FilePicker.assetSize := Some (6 * 1024 * 1024);
     FilePicker.assetMimeType := Some "image/png" |}.

(** A stand-in for [formatFileSize] where no size is printed. *)
Definition noFormat : Z -> string := fun _ => "".

(** The counter of the onboarding screen with linear easing: 100 in 10 s. *)
Definition demoCounter : CounterTimer.Props :=
  {| CounterTimer.targetNumber := 100; CounterTimer.durationSec := 10;
     CounterTimer.hasOnComplete := true; CounterTimer.easing := CounterTimer.linear |}.

Definition identityEase : Q -> Q := fun t => t.

(** The demo counter five seconds after [start]. *)
Definition halfWay : CounterTimer.Counter :=
  CounterTimer.runEvents identityEase demoCounter CounterTimer.mount
    [CounterTimer.start; CounterTimer.tick 5000].

(** The first animation ends on the UI thread, the user restarts before
    the JavaScript thread has taken the queued calls, then the queued
    calls run. *)
Definition restartBeforeDelivery : list CounterTimer.Event :=
  [CounterTimer.start; CounterTimer.tick 10000; CounterTimer.restart;
   CounterTimer.deliver; CounterTimer.deliver].

(** ** Sample inputs for the rest *)

Definition nameField : TextInput.Props :=
  {| TextInput.validators := nameValidators; TextInput.externalValue := None |}.

(** A required date field whose earliest date is 29 February 2024 at one
    o'clock. *)
Definition fromLeapDay : CalendarPicker.Props :=
  {| CalendarPicker.value := ""; CalendarPicker.format := CalendarPicker.DD_MM_YYYY;
     CalendarPicker.minDate := Some (JsDate.DateOf (19782 * 86400000 + 3600000));
     CalendarPicker.maxDate := None; CalendarPicker.required := true |}.

Definition twoFiles : FilePicker.State :=
  {| FilePicker.files := map FilePicker.selectedOf [smallFile "a.png"; smallFile "b.png"];
     FilePicker.error := ""; FilePicker.isTouched := true |}.

Definition upperCasePdf : FilePicker.Props :=
  {| FilePicker.value := []; FilePicker.maxFiles := 3;
     FilePicker.maxSizePerFile := 5 * 1024 * 1024;
     FilePicker.maxTotalSize := 15 * 1024 * 1024;
     FilePicker.allowedTypes := [".PDF"]; FilePicker.required := false |}.

Definition sampleRequest : OnboardingService.OnboardingSubmitRequest :=
  {| OnboardingService.name := "Ann"; OnboardingService.email := "ann@example.org";
     OnboardingService.startDate := "01/06/2025";
     OnboardingService.documents :=
       [ {| OnboardingService.docName := "id.png"; OnboardingService.docSize := 1024;
            OnboardingService.docMimeType := Some "image/png";
            OnboardingService.docUri := "file:///id.png";
            OnboardingService.docBase64 := None |} ] |}.

Definition samplePayload : Json.Json :=
  ApiClient.payload (fun _ => Some "aGVsbG8=") "2025-05-01T00:00:00.000Z" sampleRequest.

Definition noParse : string -> option Json.Json := fun _ => None.

(** * Properties *)

(** ** Evaluation of the string helpers on sample inputs *)

Example trim_example : JsString.trim "  a b  " = "a b".
Proof. reflexivity. Qed.

Example split_example : JsString.split "/" "31/02/2024" = ["31"; "02"; "2024"].
Proof. reflexivity. Qed.

Example parseInt_examples :
  JsString.parseInt "07" = Some 7 /\ JsString.parseInt " -12x" = Some (-12) /\
  JsString.parseInt "x1" = None /\ JsString.parseInt "" = None.
Proof. repeat split. Qed.

Example numberToString_examples :
  JsString.numberToString 2025 = "2025" /\ JsString.numberToString 0 = "0" /\
  JsString.numberToString (-5) = "-5" /\ JsString.numberToString 100 = "100".
Proof. repeat split. Qed.

(** ** The validation engine *)

Section ValidationEngine.
Import JsString TextInput.

Lemma truthy_eqb (s : string) : truthy s = negb (String.eqb s "").
Proof. destruct s; reflexivity. Qed.

Lemma truthy_empty (s : string) : negb (truthy s) = match s with EmptyString => true | _ => false end.
Proof. destruct s; reflexivity. Qed.

(** One rule adds its message exactly when it fails, whatever was
    collected before it. *)
Lemma checkRule_pushes (text : string) (errs : list string) (rule : ValidationRule) :
  wellTyped rule = true ->
  checkRule text errs rule =
  Normal (errs ++ (if ruleFails text rule then [message rule] else []))%list.
Proof.
  unfold wellTyped, checkRule, ruleFails, push.
  destruct rule as [ty val msg vd]; cbn [type value message validator].
  destruct ty; intros Hwt.
  - rewrite truthy_empty. destruct (trim text); now rewrite ?app_nil_r.
  - destruct val as [[n|t]|]; rewrite ?app_nil_r; try reflexivity.
    destruct (jsLength text <? n); now rewrite ?app_nil_r.
  - destruct val as [[n|t]|]; rewrite ?app_nil_r; try reflexivity.
    rewrite Z.gtb_ltb. destruct (n <? jsLength text); now rewrite ?app_nil_r.
  - destruct val as [[n|t]|]; rewrite ?app_nil_r; try reflexivity; try discriminate.
    rewrite truthy_eqb. destruct (_ && _); now rewrite ?app_nil_r.
  - rewrite truthy_eqb.
    destruct val as [[?|?]|], vd; destruct (_ && _); now rewrite ?app_nil_r.
  - destruct val as [[?|?]|], vd as [f|]; rewrite ?app_nil_r; try reflexivity;
      destruct (negb (f text)); now rewrite ?app_nil_r.
Qed.

Lemma validate_from (text : string) (rules : list ValidationRule) :
  forallb wellTyped rules = true ->
  forall errs,
    fold_left (fun acc rule => errs' <-- acc ;; checkRule text errs' rule)
              rules (Normal errs) =
    Normal (errs ++ map message (filter (ruleFails text) rules))%list.
Proof.
  induction rules as [|rule rules IH]; intros Hwt errs; cbn.
  - now rewrite app_nil_r.
  - cbn in Hwt. apply andb_prop in Hwt as [Hr Hrs].
    rewrite (checkRule_pushes text errs rule Hr), (IH Hrs).
    destruct (ruleFails text rule); cbn; now rewrite <- app_assoc.
Qed.

(** C2. For every sequence of rules and every text, [validate] checks
    every rule regardless of earlier failures: it returns the messages of
    exactly the failing rules, in declaration order, and the result is
    empty if and only if the text satisfies every rule. *)
Theorem validate_collects_all_failures
    (rules : list ValidationRule) (text : string) :
  forallb wellTyped rules = true ->
  validate rules text = Normal (map message (filter (ruleFails text) rules)) /\
  (validate rules text = Normal [] <->
   forall rule, In rule rules -> ruleFails text rule = false).
Proof.
  intros Hwt.
  assert (E : validate rules text = Normal (map message (filter (ruleFails text) rules)))
    by (unfold validate; now rewrite validate_from).
  split; [exact E|]. rewrite E. split.
  - intros H rule Hin. injection H as H.
    destruct (ruleFails text rule) eqn:F; [|reflexivity].
    assert (Hf : In rule (filter (ruleFails text) rules)) by (apply filter_In; auto).
    destruct (filter (ruleFails text) rules); [contradiction | discriminate].
  - intros H. f_equal.
    induction rules as [|r rs IH]; [reflexivity|]. cbn.
    rewrite (H r (or_introl eq_refl)). apply IH.
    + cbn in Hwt. now apply andb_prop in Hwt.
    + unfold validate. rewrite validate_from; [reflexivity|].
      cbn in Hwt. now apply andb_prop in Hwt.
    + intros; apply H; now right.
Qed.

End ValidationEngine.

Lemma validate_collects_all_failures_witness :
  forallb TextInput.wellTyped nameValidators = true /\
  TextInput.validate nameValidators " " =
    Normal ["Name is required"; "Name must be at least 2 characters"].
Proof.
  split; [reflexivity|].
  exact (proj1 (validate_collects_all_failures nameValidators " " eq_refl)).
Defined.

(** A [regex] rule whose value is a number makes [validate] throw on a
    non-empty text. *)
Example validate_ill_typed_rule :
  TextInput.validate
    [ {| TextInput.type := TextInput.regex;
         TextInput.value := Some (TextInput.VNumber 5);
         TextInput.message := "pattern"; TextInput.validator := None |} ] "a"
  = Throw (TypeError "rule.value.test is not a function").
Proof. reflexivity. Qed.

Example emailRegex_examples :
  TextInput.emailRegex_test "a@b.c" = true /\
  TextInput.emailRegex_test "a@b." = false /\
  TextInput.emailRegex_test "a@.c" = false /\
  TextInput.emailRegex_test "a b@c.d" = false /\
  TextInput.emailRegex_test "a@b@c.d" = false.
Proof. repeat split. Qed.

(** ** The text field *)

Section TextField.
Import JsString TextInput.

(** Before the first blur nothing has set [isTouched]. *)
Lemma typeAll_untouched (p : Props) (texts : list string) :
  forall st, isTouched st = false ->
  exists st', typeAll p st texts = Normal st' /\ isTouched st' = false /\
              errors st' = errors st.
Proof.
  induction texts as [|t ts IH]; intros st Ht; cbn.
  - now exists st.
  - unfold handleChangeText. rewrite Ht. cbn.
    destruct (negb (isControlled p)); cbn.
    + destruct (IH (setInternalValue t st) Ht) as (st' & E & Ht' & He).
      now exists st'.
    + now apply IH.
Qed.

(** C8. A text field with value [""] and the single rule [required]
    shows no error before the first blur, however much is typed; after a
    blur it has an error and shows the message of the rule. In every
    state [hasError] is [touched && errors.nonEmpty()] and [isSuccess] is
    [touched && errors.isEmpty() && value.trim().nonEmpty()]. *)
Theorem required_field_error_after_blur (m : string) (controlled : bool) :
  let p := requiredField m controlled in
  hasError initialState = false /\
  (forall texts, exists st,
      typeAll p initialState texts = Normal st /\
      hasError st = false /\ shownMessages st = []) /\
  (exists st,
      handleBlur p initialState = Normal (st, [onValidate false]) /\
      hasError st = true /\ shownMessages st = [m]) /\
  (forall (q : Props) (st : State),
      hasError st = isTouched st && negb (isEmpty (errors st)) /\
      isSuccess q st =
        isTouched st && isEmpty (errors st) &&
        negb (String.eqb (trim (currentValue q st)) "")).
Proof.
  cbn zeta. repeat split.
  - intros texts.
    destruct (typeAll_untouched (requiredField m controlled) texts initialState eq_refl)
      as (st & E & Ht & He).
    exists st. split; [exact E|].
    unfold shownMessages, hasError. now rewrite Ht.
  - destruct controlled; eexists; (split; [reflexivity|]); split; reflexivity.
  - unfold hasError. destruct (isTouched st), (errors st); reflexivity.
  - unfold isSuccess, jsLength.
    destruct (isTouched st), (errors st), (trim (currentValue q st)); reflexivity.
Qed.

End TextField.

(** ** The file selection set *)

Section FileSelection.
Import JsString FilePicker.

Variable formatFileSize : Z -> string.

Lemma processAssets_accepted (p : Props) (assets : list Asset) :
  forallb (accepted p) assets = true ->
  processAssets formatFileSize p assets = (map selectedOf assets, []).
Proof.
  induction assets as [|a rest IH]; intros H; cbn; [reflexivity|].
  cbn in H. apply andb_prop in H as [Ha Hrest].
  rewrite (IH Hrest). unfold accepted in Ha.
  apply andb_prop in Ha as [Hty Hsz].
  rewrite Hty. cbn. apply negb_true_iff in Hsz. now rewrite Hsz.
Qed.

(** C1, as amended. With [maxFiles = 3] and four candidates that all pass
    the per-candidate filter: a set that already holds three or more
    files rejects the request with "Maximum 3 file(s) allowed" and keeps
    its files; a set that holds fewer cuts the combined list down to its
    first three entries, on which the count check passes, and commits
    that list with the error cleared unless a size check fails, in which
    case the files are kept and the size message is reported. *)
Theorem requestAdd_truncates_to_maxFiles
    (p : Props) (st : State) (candidates : list Asset) :
  maxFiles p = 3 ->
  List.length candidates = 4%nat ->
  forallb (accepted p) candidates = true ->
  let st' := fst (handlePickFiles formatFileSize p st (Assets candidates)) in
  let tentative := firstn 3 (files st ++ map selectedOf candidates)%list in
  (3 <= lengthOf (files st) ->
   files st' = files st /\ error st' = "Maximum 3 file(s) allowed") /\
  (lengthOf (files st) < 3 ->
   List.length tentative = 3%nat /\
   (lengthOf tentative >? maxFiles p) = false /\
   (validateFiles formatFileSize p tentative = "" ->
    files st' = tentative /\ error st' = "") /\
   (validateFiles formatFileSize p tentative <> "" ->
    files st' = files st /\
    error st' = validateFiles formatFileSize p tentative)).
Proof.
  intros Hmax Hlen Hacc st' tentative. subst st'.
  unfold handlePickFiles. rewrite Hmax. split.
  - intros Hfull.
    replace (lengthOf (files st) >=? 3) with true
      by (symmetry; apply Z.geb_le; lia).
    cbn. split; [reflexivity|]. unfold maximumMessage. now rewrite Hmax.
  - intros Hroom.
    replace (lengthOf (files st) >=? 3) with false
      by (symmetry; rewrite Z.geb_leb; apply Z.leb_gt; lia).
    rewrite (processAssets_accepted p candidates Hacc).
    assert (Hnew : (lengthOf (map selectedOf candidates) =? 0) = false).
    { unfold lengthOf. rewrite length_map, Hlen. reflexivity. }
    rewrite Hnew. change (Z.to_nat 3) with 3%nat. fold tentative.
    assert (Ht : List.length tentative = 3%nat).
    { unfold tentative. rewrite length_firstn, length_app, length_map, Hlen. lia. }
    split; [exact Ht|]. split.
    { unfold lengthOf. rewrite Ht. reflexivity. }
    split; intros Hv.
    + rewrite Hv. cbn. split; reflexivity.
    + destruct (validateFiles formatFileSize p tentative) eqn:E; [congruence|].
      cbn. split; reflexivity.
Qed.

(** C10. The selection set takes its initial [value] as it is: after
    mounting, the files are that list and no error is set or shown,
    whatever the limits are. The first validation happens when a file is
    removed (the remaining files are validated) or the list is cleared. *)
Theorem mount_adopts_value_unvalidated (p : Props) :
  files (mount p) = value p /\
  error (mount p) = "" /\
  hasError (mount p) = false /\
  (forall index,
      let st := fst (handleRemoveFile formatFileSize p (mount p) index) in
      files st = removeAt index (value p) /\
      error st = validateFiles formatFileSize p (removeAt index (value p))) /\
  (let st := fst (handleClearAll (mount p)) in files st = [] /\ error st = "").
Proof. repeat split. Qed.

End FileSelection.

(** C1 fails as stated: an empty set with [maxFiles = 3] that is given
    four valid candidates commits the first three and reports no error. *)
Lemma requestAdd_four_candidates_commits_three :
  let p := FilePicker.defaultProps in
  let st := FilePicker.mount p in
  let st' := fst (FilePicker.handlePickFiles noFormat p st (FilePicker.Assets fourCandidates)) in
  FilePicker.maxFiles p = 3 /\
  forallb (FilePicker.accepted p) fourCandidates = true /\
  FilePicker.files st' =
    map FilePicker.selectedOf [smallFile "a.png"; smallFile "b.png"; smallFile "c.png"] /\
  FilePicker.error st' = "" /\
  ~ (FilePicker.error st' = "Maximum 3 file(s) allowed" /\
     FilePicker.files st' = FilePicker.files st).
Proof.
  cbn zeta. repeat split. intros [H _]. discriminate H.
Qed.

Lemma requestAdd_truncates_to_maxFiles_witness :
  let p := FilePicker.defaultProps in
  let st := FilePicker.mount p in
  let st' := fst (FilePicker.handlePickFiles noFormat p st (FilePicker.Assets fourCandidates)) in
  FilePicker.files st' = firstn 3 (map FilePicker.selectedOf fourCandidates) /\
  FilePicker.error st' = "".
Proof.
  cbn zeta.
  refine (proj1 (proj2 (proj2
    (proj2 (requestAdd_truncates_to_maxFiles noFormat FilePicker.defaultProps
              (FilePicker.mount FilePicker.defaultProps) fourCandidates
              eq_refl eq_refl eq_refl) _))) _).
  - vm_compute. reflexivity.
  - reflexivity.
Defined.

Example isFileTypeAllowed_examples :
  FilePicker.isFileTypeAllowed imagesAndPdf (Some "image/png") "a.png" = true /\
  FilePicker.isFileTypeAllowed imagesAndPdf (Some "application/pdf") "scan.PDF" = true /\
  FilePicker.isFileTypeAllowed imagesAndPdf None "notes.txt" = false /\
  FilePicker.isFileTypeAllowed imagesAndPdf None ".pdf" = false /\
  FilePicker.getFileExtension "archive.tar.GZ" = "gz" /\
  FilePicker.getFileExtension "README" = "".
Proof. repeat split. Qed.

(** Of two candidates the one above the per-file limit is dropped with an
    alert and the other is committed without error. *)
Example oversized_candidate_is_dropped :
  let p := FilePicker.defaultProps in
  let r := FilePicker.handlePickFiles noFormat p (FilePicker.mount p)
             (FilePicker.Assets [hugeFile; smallFile "a.png"]) in
  FilePicker.files (fst r) = [FilePicker.selectedOf (smallFile "a.png")] /\
  FilePicker.error (fst r) = "" /\
  snd r = [FilePicker.alert "File Too Large" "huge.png () exceeds maximum size of ";
           FilePicker.onChange [FilePicker.selectedOf (smallFile "a.png")]].
Proof. cbv zeta. repeat split. Qed.

(** An initial list of four files with [maxFiles = 3] is kept and not
    flagged at mount, although validation would refuse it. *)
Example mount_keeps_violating_list :
  let p := {| FilePicker.value := map FilePicker.selectedOf fourCandidates;
              FilePicker.maxFiles := 3;
              FilePicker.maxSizePerFile := 5 * 1024 * 1024;
              FilePicker.maxTotalSize := 15 * 1024 * 1024;
              FilePicker.allowedTypes := ["*/*"]; FilePicker.required := false |} in
  FilePicker.lengthOf (FilePicker.files (FilePicker.mount p)) = 4 /\
  FilePicker.error (FilePicker.mount p) = "" /\
  FilePicker.validateFiles noFormat p (FilePicker.files (FilePicker.mount p)) =
    "Maximum 3 file(s) allowed".
Proof. repeat split. Qed.

(** ** The date field *)

Section DateField.
Import JsString JsDate CalendarPicker.

Lemma parseDate_blank (f : DateFormat) (text : string) :
  truthy (trim text) = false -> parseDate f text = None.
Proof. intros H. unfold parseDate. now rewrite H. Qed.

(** C3. For every text, [validateDate] reports the message of the first
    check that fails in the order required, parseable in the configured
    format, not before [minDate], not after [maxDate], and nothing else.
    With the bounds 2025-01-01 and 2025-12-31 in [DD/MM/YYYY], the text
    "15/13/2025" gets the format message and "01/01/2024" the message of
    the lower bound. *)
Theorem validateDate_reports_first_failure :
  (forall (p : Props) (text : string), validateDate p text = firstFailure p text) /\
  validateDate year2025 "15/13/2025" = "Invalid date format. Use DD/MM/YYYY" /\
  validateDate year2025 "01/01/2024" = "Date must be after 01/01/2025" /\
  parseDate DD_MM_YYYY "01/01/2024" = Some (midnight 2024 1 1).
Proof.
  split; [|repeat split].
  intros p text. unfold validateDate, firstFailure, checksInOrder.
  cbn [find]. unfold checkFails, checkMessage, blank.
  destruct (truthy (trim text)) eqn:B; cbn [negb andb].
  - rewrite andb_false_r. cbn [negb andb].
    destruct (parseDate (format p) text) as [date|]; [|reflexivity].
    unfold violated.
    destruct (minDate p) as [lo|].
    + destruct (lessThan date lo); [reflexivity|].
      destruct (maxDate p) as [hi|]; [|reflexivity].
      destruct (lessThan hi date); reflexivity.
    + destruct (maxDate p) as [hi|]; [|reflexivity].
      destruct (lessThan hi date); reflexivity.
  - rewrite (parseDate_blank (format p) text B), andb_true_r.
    destruct (required p); reflexivity.
Qed.

Lemma components_separator (f : DateFormat) (text : string) :
  components f text = readParts f (split (separator f) text).
Proof.
  unfold components, readParts, separator.
  destruct f; destruct (split _ text) as [|a [|b [|c [|e l]]]]; reflexivity.
Qed.

(** C5, as amended. [parseDate] returns a date exactly when the text is
    not blank, splits in three parts on the separator of the format,
    every part starts (after optional white space and a sign) with
    decimal digits, and the date constructed from the three numbers has
    exactly that day, month and year; in every other case it returns
    null. Characters that follow the digits of a part are ignored. The
    text "31/02/2024" is refused, although its date rolls over to
    2 March 2024. *)
Theorem parseDate_accepts_exact_matches_only :
  (forall (f : DateFormat) (text : string) (date : Date),
      parseDate f text = Some date <->
      exists day month year,
        truthy (trim text) = true /\
        components f text = Some (Some day, Some month, Some year) /\
        date = newDate (Some year) (Some month) (Some day) /\
        getDate date = Some day /\
        getMonth date = Some month /\
        getFullYear date = Some year) /\
  (forall (f : DateFormat) (text : string),
      List.length (split (separator f) text) <> 3%nat -> parseDate f text = None) /\
  (forall (f : DateFormat) (text part : string),
      In part (split (separator f) text) -> parseInt part = None ->
      parseDate f text = None) /\
  parseDate DD_MM_YYYY "31/02/2024" = None /\
  newDate (Some 2024) (Some 1) (Some 31) = midnight 2024 3 2.
Proof.
  split; [|split; [|split; [|split; reflexivity]]].
  2: { intros f text H. unfold parseDate.
       destruct (truthy (trim text)); [|reflexivity]. cbn [negb].
       rewrite (components_separator f text).
       destruct (split (separator f) text) as [|a [|b [|c [|e l]]]];
         try reflexivity. now contradiction H. }
  2: { intros f text part Hin Hnan. unfold parseDate.
       destruct (truthy (trim text)); [|reflexivity]. cbn [negb].
       rewrite (components_separator f text).
       destruct (split (separator f) text) as [|a [|b [|c [|e l]]]];
         try reflexivity.
       assert (Hp : parseInt a = None \/ parseInt b = None \/ parseInt c = None).
       { destruct Hin as [<-|[<-|[<-|[]]]]; auto. }
       destruct f; cbn [readParts];
         destruct Hp as [Hp|[Hp|Hp]]; rewrite Hp;
         destruct (parseInt a), (parseInt b), (parseInt c); reflexivity. }
  intros f text date. unfold parseDate. split.
  - destruct (truthy (trim text)); cbn [negb]; [|discriminate].
    destruct (components f text) as [[[day month] year]|]; [|discriminate].
    destruct (_ || _) eqn:E; [discriminate|].
    intros H. injection H as <-.
    apply orb_false_elim in E as [E Hy].
    apply orb_false_elim in E as [E Hm].
    apply orb_false_elim in E as [Ht Hd].
    assert (S : forall a b, strictNotEqual a b = false -> a = b /\ exists z, b = Some z).
    { intros [a|] [b|]; cbn; try discriminate.
      intros H. apply negb_false_iff, Z.eqb_eq in H. subst. eauto. }
    apply S in Hy as [Hy [y ->]]. apply S in Hm as [Hm [m ->]].
    apply S in Hd as [Hd [d ->]].
    exists d, m, y. repeat split; assumption.
  - intros (day & month & year & -> & -> & -> & Hd & Hm & Hy).
    cbn [negb]. rewrite Hd, Hm, Hy.
    destruct (newDate (Some year) (Some month) (Some day)); [discriminate|].
    cbn. now rewrite !Z.eqb_refl.
Qed.

(** C5 fails as stated: a part that is not a number but starts with a
    digit is read up to its first other character, and the date is
    accepted. *)
Lemma parseDate_accepts_trailing_garbage :
  parseDate DD_MM_YYYY "1x/02/2024" = Some (midnight 2024 2 1) /\
  parseInt "1x" = Some 1 /\
  parseDate DD_MM_YYYY "1x/02/2024" <> None.
Proof.
  split; [vm_compute; reflexivity|]. split; [reflexivity|].
  intros H. vm_compute in H. discriminate H.
Qed.

(** C9. The text change handler never completes: for every text and
    every state, touched or not, reading [validationError] outside the
    block that declares it throws a [ReferenceError], and [onChange] is
    not called. *)
Theorem handleTextChange_throws (p : Props) (st : State) (text : string) :
  thrown (handleTextChange p st text) = Some (ReferenceError "validationError") /\
  calls (handleTextChange p st text) = [].
Proof. split; reflexivity. Qed.

End DateField.

(** ** The animated counter *)

Section AnimatedCounter.
Import CounterTimer.
Local Open Scope Q_scope.

Variable ease : Q -> Q.

Lemma validDuration_positive (p : Props) : 0 < validDuration p.
Proof.
  unfold validDuration, qmax.
  destruct (Qle_bool (1 # 10) _) eqn:E.
  - apply Qle_bool_iff in E. eapply Qlt_le_trans; [|exact E]. reflexivity.
  - reflexivity.
Qed.

(** C6. From [running] with progress [p], [stop] gives [paused] with the
    progress frozen at [p] and no animation in flight, so later frames
    leave it at [p]; a following [start] gives [running] with a new
    animation from [p] to 1 that lasts the configured duration times
    [1 - p] and uses the configured easing, which is shorter than the
    full duration as soon as [p] is positive. *)
Theorem stop_then_start_resumes_remaining (p : Props) (c : Counter) :
  state c = running ->
  let c1 := handleStop c in
  let c2 := handleStart p c1 in
  (state c1 = paused /\ progress c1 = progress c /\ animation c1 = None /\
   forall dt, progress (frame ease p dt c1) = progress c) /\
  (state c2 = running /\ progress c2 = progress c /\
   animation c2 =
     Some {| fromValue := progress c; toValue := 1;
             duration := validDuration p * 1000 * (1 - progress c);
             easingOf := easing p; elapsed := 0; run := started c |}) /\
  (0 < progress c ->
   validDuration p * 1000 * (1 - progress c) < validDuration p * 1000).
Proof.
  intros Hrun. unfold handleStop. rewrite Hrun. cbn.
  repeat split.
  intros Hp. pose proof (validDuration_positive p) as Hd.
  assert (0 < validDuration p * progress c) by (now apply Qmult_lt_0_compat).
  lra.
Qed.

End AnimatedCounter.

Lemma stop_then_start_resumes_remaining_witness :
  CounterTimer.state halfWay = CounterTimer.running /\
  (CounterTimer.progress halfWay == 1 # 2)%Q /\
  (CounterTimer.currentValue demoCounter halfWay == 50)%Q /\
  option_map CounterTimer.duration
    (CounterTimer.animation
       (CounterTimer.handleStart demoCounter (CounterTimer.handleStop halfWay))) =
  Some (CounterTimer.validDuration demoCounter * 1000 *
        (1 - CounterTimer.progress halfWay))%Q /\
  (CounterTimer.validDuration demoCounter * 1000 *
   (1 - CounterTimer.progress halfWay) == 5000)%Q.
Proof.
  split; [reflexivity|]. split; [reflexivity|]. split; [reflexivity|].
  split; [|reflexivity].
  pose proof (stop_then_start_resumes_remaining identityEase demoCounter halfWay eq_refl)
    as (_ & (_ & _ & Ha) & _).
  cbv zeta in Ha. rewrite Ha. reflexivity.
Defined.

(** C7 (the code departs from it). No handler withdraws a call that a
    finished animation has queued for the JavaScript thread. So after
    [restartBeforeDelivery] the completion of the first run has been
    notified after the restart: the state is [completed] and [onComplete]
    has fired while the second animation is in flight at progress 0.
    When that animation ends, [onComplete] fires again. *)
Theorem stale_completion_after_restart :
  (forall (p : CounterTimer.Props) (c : CounterTimer.Counter),
      CounterTimer.jsQueue (CounterTimer.handleRestart p c) = CounterTimer.jsQueue c /\
      CounterTimer.jsQueue (CounterTimer.handleReset c) = CounterTimer.jsQueue c /\
      CounterTimer.jsQueue (CounterTimer.handleStop c) = CounterTimer.jsQueue c) /\
  let c := CounterTimer.runEvents identityEase demoCounter CounterTimer.mount
             restartBeforeDelivery in
  CounterTimer.state c = CounterTimer.completed /\
  CounterTimer.progress c = 0%Q /\
  option_map CounterTimer.run (CounterTimer.animation c) = Some 1%nat /\
  CounterTimer.notifications c =
    [{| CounterTimer.ofRun := 0; CounterTimer.latestRun := 1 |}] /\
  existsb CounterTimer.stale (CounterTimer.notifications c) = true /\
  CounterTimer.notifications
    (CounterTimer.runEvents identityEase demoCounter c
       [CounterTimer.tick 10000; CounterTimer.deliver; CounterTimer.deliver]) =
    [{| CounterTimer.ofRun := 0; CounterTimer.latestRun := 1 |};
     {| CounterTimer.ofRun := 1; CounterTimer.latestRun := 1 |}].
Proof.
  split.
  - intros p c. repeat split.
    unfold CounterTimer.handleStop. now destruct (CounterTimer.state c).
  - cbv zeta. repeat split.
Qed.

(** ** The calendar arithmetic *)

Section Calendar.
Import JsDate.

Lemma yoe_range (doe : Z) :
  0 <= doe <= 146096 ->
  let yoe := yoeOfDoe doe in
  0 <= yoe <= 399 /\ 0 <= doe - (365 * yoe + yoe / 4 - yoe / 100) <= 365.
Proof.
  intros H. cbv zeta. unfold yoeOfDoe. Z.div_mod_to_equations. lia.
Qed.

Lemma month_day_range (doy : Z) :
  0 <= doy <= 365 ->
  let mp := (5 * doy + 2) / 153 in
  0 <= mp <= 11 /\ 1 <= doy - (153 * mp + 2) / 5 + 1 <= 31.
Proof.
  intros H. cbv zeta. Z.div_mod_to_equations. lia.
Qed.

(** The civil date of a day number has a month in 1..12 and a day in
    1..31, and counting its days gives the day number back. *)
Lemma civilFromDays_inverse (n : Z) :
  let '(y, m, d) := civilFromDays n in
  1 <= m <= 12 /\ 1 <= d <= 31 /\ daysFromCivil y m d = n.
Proof.
  unfold civilFromDays.
  set (z := n + 719468). set (era := z / 146097).
  set (doe := z - era * 146097).
  assert (Hdoe : 0 <= doe <= 146096)
    by (subst doe era; Z.div_mod_to_equations; lia).
  destruct (yoe_range doe Hdoe) as [Hyoe Hdoy].
  set (yoe := yoeOfDoe doe) in *.
  set (doy := doe - (365 * yoe + yoe / 4 - yoe / 100)) in *.
  destruct (month_day_range doy Hdoy) as [Hmp Hd].
  set (mp := (5 * doy + 2) / 153) in *.
  set (d := doy - (153 * mp + 2) / 5 + 1) in *.
  assert (Hera : forall k, 0 <= k <= 399 -> (k + era * 400) / 400 = era).
  { intros k Hk. rewrite Z.div_add by lia. rewrite Z.div_small by lia. lia. }
  unfold daysFromCivil.
  destruct (mp <? 10) eqn:Emp.
  - apply Z.ltb_lt in Emp.
    replace (mp + 3 <=? 2) with false by (symmetry; apply Z.leb_gt; lia).
    replace (2 <? mp + 3) with true by (symmetry; apply Z.ltb_lt; lia).
    rewrite (Hera yoe Hyoe).
    replace (mp + 3 - 3) with mp by lia.
    replace (yoe + era * 400 - era * 400) with yoe by lia.
    subst d doy doe z. lia.
  - apply Z.ltb_ge in Emp.
    replace (mp - 9 <=? 2) with true by (symmetry; apply Z.leb_le; lia).
    replace (2 <? mp - 9) with false by (symmetry; apply Z.ltb_ge; lia).
    replace (yoe + era * 400 + 1 - 1) with (yoe + era * 400) by lia.
    rewrite (Hera yoe Hyoe).
    replace (mp - 9 + 9) with mp by lia.
    replace (yoe + era * 400 - era * 400) with yoe by lia.
    subst d doy doe z. lia.
Qed.

Lemma MakeDay_civil (y m d : Z) :
  1 <= m <= 12 -> MakeDay y (m - 1) d = daysFromCivil y m d.
Proof.
  intros Hm. unfold MakeDay.
  rewrite (Z.div_small (m - 1) 12), (Z.mod_small (m - 1) 12) by lia.
  replace (y + 0) with y by lia. replace (m - 1 + 1) with m by lia.
  unfold daysFromCivil. lia.
Qed.

End Calendar.

(** ** Numbers written as text and read back *)

Section NumberStrings.
Import JsString.

Lemma digitChar_spec (d : Z) :
  0 <= d <= 9 -> isDigit (digitChar d) = true /\ digitValue (digitChar d) = d.
Proof.
  intros H.
  assert (C : d = 0 \/ d = 1 \/ d = 2 \/ d = 3 \/ d = 4 \/ d = 5 \/ d = 6 \/
              d = 7 \/ d = 8 \/ d = 9) by lia.
  repeat (destruct C as [-> | C]; [split; reflexivity|]). subst; split; reflexivity.
Qed.

Lemma readDigits_digitChar (d : Z) (rest : string) (a : Z) (seen : bool) :
  0 <= d <= 9 ->
  readDigits (String (digitChar d) rest) a seen = readDigits rest (10 * a + d) true.
Proof.
  intros H. destruct (digitChar_spec d H) as [Hd Hv].
  cbn [readDigits]. now rewrite Hd, Hv.
Qed.

Lemma digitsFuel_step (f : nat) (n : Z) (acc : string) :
  digitsFuel (S f) n acc =
  if n <? 10 then String (digitChar (n mod 10)) acc
  else digitsFuel f (n / 10) (String (digitChar (n mod 10)) acc).
Proof. reflexivity. Qed.

Lemma readDigits_digitsFuel (f : nat) :
  forall n acc seen,
    0 <= n < 2 ^ (Z.of_nat f + 1) ->
    readDigits (digitsFuel (S f) n acc) 0 seen = readDigits acc n true.
Proof.
  induction f as [|f IH]; intros n acc seen Hn; rewrite digitsFuel_step.
  - change (2 ^ (Z.of_nat 0 + 1)) with 2 in Hn.
    replace (n <? 10) with true by (symmetry; apply Z.ltb_lt; lia).
    rewrite readDigits_digitChar by (pose proof (Z.mod_pos_bound n 10); lia).
    rewrite Z.mod_small by lia. f_equal.
  - destruct (n <? 10) eqn:E.
    + apply Z.ltb_lt in E.
      rewrite readDigits_digitChar by (pose proof (Z.mod_pos_bound n 10); lia).
      rewrite Z.mod_small by lia. f_equal.
    + apply Z.ltb_ge in E.
      rewrite IH.
      * rewrite readDigits_digitChar by (pose proof (Z.mod_pos_bound n 10); lia).
        f_equal. pose proof (Z.div_mod n 10). lia.
      * replace (Z.of_nat (S f) + 1) with (Z.succ (Z.of_nat f + 1)) in Hn by lia.
        rewrite Z.pow_succ_r in Hn by lia.
        split; [apply Z.div_pos; lia|].
        apply Z.div_lt_upper_bound; lia.
Qed.

Lemma readDigits_natToString (n : Z) (seen : bool) :
  0 <= n -> readDigits (natToString n) 0 seen = (n, true).
Proof.
  intros Hn. unfold natToString. rewrite readDigits_digitsFuel; [reflexivity|].
  split; [exact Hn|].
  destruct (Z.eq_dec n 0) as [->|Hne]; [reflexivity|].
  rewrite Z2Nat.id by apply Z.log2_nonneg.
  apply Z.log2_spec. lia.
Qed.

Lemma digitsFuel_digits (f : nat) :
  forall n acc,
    allChars isDigit acc = true -> allChars isDigit (digitsFuel f n acc) = true.
Proof.
  induction f as [|f IH]; intros n acc Hacc; cbn [digitsFuel]; [exact Hacc|].
  assert (Hd : allChars isDigit (String (digitChar (n mod 10)) acc) = true).
  { cbn [allChars]. rewrite Hacc.
    destruct (digitChar_spec (n mod 10)) as [-> _]; [|reflexivity].
    pose proof (Z.mod_pos_bound n 10). lia. }
  destruct (n <? 10); [exact Hd | now apply IH].
Qed.

Lemma digitsFuel_nonempty (f : nat) :
  forall n acc, acc <> EmptyString \/ f <> O -> digitsFuel f n acc <> EmptyString.
Proof.
  induction f as [|f IH]; intros n acc H; cbn [digitsFuel].
  - destruct H as [H|H]; [exact H | congruence].
  - destruct (n <? 10); [discriminate|]. apply IH. left. discriminate.
Qed.

(** The decimal text of a number is a digit followed by digits. *)
Lemma natToString_shape (n : Z) :
  exists c t, natToString n = String c t /\ isDigit c = true /\ allChars isDigit t = true.
Proof.
  pose proof (digitsFuel_digits (S (Z.to_nat (Z.log2 n))) n EmptyString eq_refl) as Hd.
  pose proof (digitsFuel_nonempty (S (Z.to_nat (Z.log2 n))) n EmptyString
                (or_intror (Nat.neq_succ_0 _))) as Hne.
  fold (natToString n) in Hd, Hne.
  destruct (natToString n) as [|c t]; [congruence|].
  cbn [allChars] in Hd. apply andb_prop in Hd as [Hc Ht]. now exists c, t.
Qed.

Lemma digit_facts (c : ascii) :
  isDigit c = true ->
  isWhiteSpace c = false /\ Ascii.eqb c "/" = false /\ Ascii.eqb c "-" = false /\
  Ascii.eqb c "+" = false.
Proof.
  destruct c as [[] [] [] [] [] [] [] []]; cbn; intros H;
    try discriminate H; repeat split.
Qed.

(** [parseInt] on a text that starts with a digit reads the digits. *)
Lemma parseInt_digit_first (c : ascii) (t : string) :
  isDigit c = true ->
  parseInt (String c t) =
  match readDigits (String c t) 0 false with
  | (n, true) => Some n
  | (_, false) => None
  end.
Proof.
  destruct c as [[] [] [] [] [] [] [] []]; cbn; intros H;
    try discriminate H; reflexivity.
Qed.

Lemma parseInt_natToString (n : Z) : 0 <= n -> parseInt (natToString n) = Some n.
Proof.
  intros Hn. destruct (natToString_shape n) as (c & t & E & Hc & _).
  pose proof (readDigits_natToString n false Hn) as R.
  rewrite E in *. rewrite (parseInt_digit_first c t Hc), R. reflexivity.
Qed.

Lemma parseInt_numberToString (z : Z) : parseInt (numberToString z) = Some z.
Proof.
  unfold numberToString. destruct (z <? 0) eqn:E.
  - apply Z.ltb_lt in E.
    change (parseInt (String "-" (natToString (- z))))
      with (match readDigits (natToString (- z)) 0 false with
            | (n, true) => Some (- n)
            | (_, false) => None
            end).
    rewrite readDigits_natToString by lia. f_equal. lia.
  - apply Z.ltb_ge in E. now apply parseInt_natToString.
Qed.

Lemma parseInt_padStart2 (n : Z) :
  0 <= n -> parseInt (padStart2 (numberToString n)) = Some n.
Proof.
  intros Hn. unfold numberToString.
  replace (n <? 0) with false by (symmetry; apply Z.ltb_ge; lia).
  destruct (natToString_shape n) as (c & t & E & Hc & _).
  pose proof (readDigits_natToString n true Hn) as R.
  destruct t as [|c' t].
  - rewrite E in *. cbn [padStart2].
    rewrite (parseInt_digit_first "0" _ eq_refl).
    change (readDigits (String "0" (String c EmptyString)) 0 false)
      with (readDigits (String c EmptyString) 0 true).
    now rewrite R.
  - rewrite <- (parseInt_natToString n Hn). now rewrite E.
Qed.

Lemma padStart2_shape (n : Z) :
  0 <= n ->
  exists c t, padStart2 (numberToString n) = String c t /\
              isDigit c = true /\ allChars isDigit t = true.
Proof.
  intros Hn. unfold numberToString.
  replace (n <? 0) with false by (symmetry; apply Z.ltb_ge; lia).
  destruct (natToString_shape n) as (c & t & E & Hc & Ht). rewrite E.
  destruct t as [|c' t].
  - exists "0"%char, (String c EmptyString). cbn. now rewrite Hc.
  - now exists c, (String c' t).
Qed.

Lemma split_noChar (sep : ascii) (s : string) :
  noChar sep s = true -> split sep s = [s].
Proof.
  unfold noChar. induction s as [|c s IH]; cbn; [reflexivity|].
  intros H. apply andb_prop in H as [Hc Hs].
  apply negb_true_iff in Hc. rewrite Hc, (IH Hs). reflexivity.
Qed.

Lemma split_append (sep : ascii) (a b : string) :
  noChar sep a = true -> split sep (a ++ String sep b) = a :: split sep b.
Proof.
  unfold noChar. induction a as [|c a IH]; cbn.
  - intros _. now rewrite Ascii.eqb_refl.
  - intros H. apply andb_prop in H as [Hc Ha].
    apply negb_true_iff in Hc. rewrite Hc, (IH Ha). reflexivity.
Qed.

Lemma digits_noChar (sep : ascii) (s : string) :
  isDigit sep = false -> allChars isDigit s = true -> noChar sep s = true.
Proof.
  intros Hsep. unfold noChar. induction s as [|c s IH]; cbn; [reflexivity|].
  intros H. apply andb_prop in H as [Hc Hs]. rewrite (IH Hs), andb_true_r.
  apply negb_true_iff. destruct (Ascii.eqb_spec c sep) as [->|]; congruence.
Qed.

Lemma trim_truthy (c : ascii) (t : string) :
  isWhiteSpace c = false -> truthy (trim (String c t)) = true.
Proof.
  intros H. unfold trim. cbn [trimStart]. rewrite H. cbn [trimEnd].
  destruct (trimEnd t); [rewrite H|]; reflexivity.
Qed.

End NumberStrings.

(** ** Formatting a date and parsing it back *)

Section RoundTrip.
Import JsString JsDate CalendarPicker.

Lemma split_three (sep : ascii) (a b c : string) :
  noChar sep a = true -> noChar sep b = true -> noChar sep c = true ->
  split sep (a ++ String sep (b ++ String sep c)) = [a; b; c].
Proof.
  intros Ha Hb Hc.
  now rewrite (split_append sep a _ Ha), (split_append sep b _ Hb), (split_noChar sep c Hc).
Qed.

Lemma parseDate_intro (f : DateFormat) (text : string) (day month year : Z) (date : Date) :
  truthy (trim text) = true ->
  components f text = Some (Some day, Some month, Some year) ->
  newDate (Some year) (Some month) (Some day) = date ->
  getDate date = Some day -> getMonth date = Some month -> getFullYear date = Some year ->
  parseDate f text = Some date.
Proof.
  intros Ht Hc Hn Hd Hm Hy. unfold parseDate.
  rewrite Ht, Hc, Hn, Hd, Hm, Hy. cbn [negb].
  destruct date; [discriminate|]. cbn. now rewrite !Z.eqb_refl.
Qed.

Lemma civilOf_dayStart (n : Z) : civilOf (dayStart n) = Some (civilFromDays n).
Proof.
  unfold civilOf, dayStart. now rewrite Z.div_mul by discriminate.
Qed.

(** The text of a year: no ["/"] in it, the year is read back from it,
    it starts with a character that is not white space, and a year that
    is not negative has no ["-"]. *)
Lemma year_text (y : Z) :
  let s := numberToString y in
  noChar "/" s = true /\ parseInt s = Some y /\
  (exists c t, s = String c t /\ isWhiteSpace c = false) /\
  (0 <= y -> noChar "-" s = true).
Proof.
  cbv zeta. split; [|split; [apply parseInt_numberToString|split]].
  - unfold numberToString. destruct (natToString_shape y) as (c & t & E & Hc & Ht).
    destruct (natToString_shape (- y)) as (c' & t' & E' & Hc' & Ht').
    destruct (y <? 0).
    + rewrite E'.
      change (noChar "/" (String "-" (String c' t'))) with (noChar "/" (String c' t')).
      apply digits_noChar; [reflexivity|]. cbn [allChars]. now rewrite Hc', Ht'.
    + rewrite E. apply digits_noChar; [reflexivity|]. cbn [allChars]. now rewrite Hc, Ht.
  - unfold numberToString. destruct (y <? 0).
    + now exists "-"%char, (natToString (- y)).
    + destruct (natToString_shape y) as (c & t & E & Hc & _).
      exists c, t. split; [exact E|]. now apply digit_facts.
  - intros Hy. unfold numberToString.
    replace (y <? 0) with false by (symmetry; apply Z.ltb_ge; lia).
    destruct (natToString_shape y) as (c & t & E & Hc & Ht). rewrite E.
    apply digits_noChar; [reflexivity|]. cbn [allChars]. now rewrite Hc, Ht.
Qed.

(** The two-digit text of a day or a month. *)
Lemma padded_text (n : Z) :
  0 <= n ->
  let s := padStart2 (numberToString n) in
  noChar "/" s = true /\ noChar "-" s = true /\ parseInt s = Some n /\
  exists c t, s = String c t /\ isWhiteSpace c = false.
Proof.
  intros Hn. cbv zeta.
  destruct (padStart2_shape n Hn) as (c & t & E & Hc & Ht).
  assert (Hd : allChars isDigit (padStart2 (numberToString n)) = true)
    by (rewrite E; cbn [allChars]; now rewrite Hc, Ht).
  repeat split.
  - now apply digits_noChar.
  - now apply digits_noChar.
  - now apply parseInt_padStart2.
  - exists c, t. split; [exact E|]. now apply digit_facts.
Qed.

Lemma components_formatDate (f : DateFormat) (n y m d : Z) :
  civilFromDays n = (y, m, d) ->
  1 <= m <= 12 -> 1 <= d <= 31 ->
  (0 <= y \/ f <> YYYY_MM_DD) ->
  components f (formatDate f (dayStart n)) = Some (Some d, Some (m - 1), Some y) /\
  truthy (trim (formatDate f (dayStart n))) = true.
Proof.
  intros E Hm Hd Hy.
  unfold formatDate, getDate, getMonth, getFullYear.
  rewrite civilOf_dayStart, E. cbn [option_map fst snd numberString].
  replace (m - 1 + 1) with m by lia.
  destruct (padded_text d) as (DS & DD & DP & dc & dt & DE & DW); [lia|].
  destruct (padded_text m) as (MS & MD & MP & mc & mt & ME & MW); [lia|].
  destruct (year_text y) as (YS & YP & (yc & yt & YE & YW) & YD).
  set (D := padStart2 (numberToString d)) in *.
  set (M := padStart2 (numberToString m)) in *.
  set (Y := numberToString y) in *.
  destruct f; unfold components.
  - change (D ++ "/" ++ M ++ "/" ++ Y)%string
      with (D ++ String "/" (M ++ String "/" Y))%string.
    rewrite (split_three "/" D M Y DS MS YS), DP, MP, YP. split; [reflexivity|].
    rewrite DE. cbn [append]. now apply trim_truthy.
  - change (M ++ "/" ++ D ++ "/" ++ Y)%string
      with (M ++ String "/" (D ++ String "/" Y))%string.
    rewrite (split_three "/" M D Y MS DS YS), DP, MP, YP. split; [reflexivity|].
    rewrite ME. cbn [append]. now apply trim_truthy.
  - assert (Hy0 : 0 <= y) by (destruct Hy; [assumption | congruence]).
    change (Y ++ "-" ++ M ++ "-" ++ D)%string
      with (Y ++ String "-" (M ++ String "-" D))%string.
    rewrite (split_three "-" Y M D (YD Hy0) MD DD), DP, MP, YP. split; [reflexivity|].
    rewrite YE. cbn [append]. now apply trim_truthy.
Qed.

(** C4, as amended. For every day whose midnight is a valid time value
    and whose year is at least 100, or negative when the format is not
    [YYYY-MM-DD], and for each of the three formats, parsing the
    formatted text gives back the date of that day. *)
Theorem parse_format_roundtrip (f : DateFormat) (n : Z) :
  Z.abs (n * msPerDay) <= maxTime ->
  (let year := fst (fst (civilFromDays n)) in
   100 <= year \/ (year < 0 /\ f <> YYYY_MM_DD)) ->
  parseDate f (formatDate f (dayStart n)) = Some (dayStart n).
Proof.
  intros Hrange Hyear.
  pose proof (civilFromDays_inverse n) as Hc.
  destruct (civilFromDays n) as [[y m] d] eqn:E.
  destruct Hc as (Hm & Hd & Hinv). cbn [fst] in Hyear.
  destruct (components_formatDate f n y m d E Hm Hd) as [Hcomp Htrim].
  { destruct Hyear as [H|[_ H]]; [left; lia | now right]. }
  assert (Hnew : newDate (Some y) (Some (m - 1)) (Some d) = dayStart n).
  { unfold newDate.
    replace ((0 <=? y) && (y <=? 99)) with false
      by (symmetry; apply andb_false_iff;
          destruct Hyear as [H|[H _]];
          [right; apply Z.leb_gt; lia | left; apply Z.leb_gt; lia]).
    rewrite (MakeDay_civil y m d Hm), Hinv. unfold TimeClip, dayStart.
    now replace (Z.abs (n * msPerDay) <=? maxTime) with true
      by (symmetry; now apply Z.leb_le). }
  apply (parseDate_intro f _ d (m - 1) y (dayStart n) Htrim Hcomp Hnew);
    unfold getDate, getMonth, getFullYear; rewrite civilOf_dayStart, E; reflexivity.
Qed.

End RoundTrip.

(** C4 fails as stated: 1 January of the year 50 is formatted as
    "01/01/50", which is read as a day of 1950 and refused; and a day of
    a negative year is formatted in [YYYY-MM-DD] with one ["-"] too
    many. *)
Lemma parse_format_fails_for_two_digit_year :
  let date := JsDate.midnight 50 1 1 in
  JsDate.getFullYear date = Some 50 /\
  CalendarPicker.formatDate CalendarPicker.DD_MM_YYYY date = "01/01/50" /\
  CalendarPicker.parseDate CalendarPicker.DD_MM_YYYY
    (CalendarPicker.formatDate CalendarPicker.DD_MM_YYYY date) = None /\
  CalendarPicker.parseDate CalendarPicker.DD_MM_YYYY
    (CalendarPicker.formatDate CalendarPicker.DD_MM_YYYY date) <> Some date /\
  CalendarPicker.parseDate CalendarPicker.YYYY_MM_DD
    (CalendarPicker.formatDate CalendarPicker.YYYY_MM_DD (JsDate.midnight (-5) 1 1)) = None.
Proof.
  cbv zeta. repeat split; try (vm_compute; reflexivity).
  intros H. vm_compute in H. discriminate H.
Qed.

Lemma parse_format_roundtrip_witness :
  CalendarPicker.parseDate CalendarPicker.YYYY_MM_DD
    (CalendarPicker.formatDate CalendarPicker.YYYY_MM_DD (JsDate.dayStart 19782)) =
  Some (JsDate.dayStart 19782) /\
  CalendarPicker.formatDate CalendarPicker.YYYY_MM_DD (JsDate.dayStart 19782) = "2024-02-29".
Proof.
  split; [|vm_compute; reflexivity].
  apply (parse_format_roundtrip CalendarPicker.YYYY_MM_DD 19782).
  - vm_compute. discriminate.
  - left. vm_compute. discriminate.
Defined.

(** * Further properties *)

(** ** Strings *)

Section StringFacts.
Import JsString.

Lemma allChars_append (p : ascii -> bool) (a b : string) :
  allChars p (a ++ b) = allChars p a && allChars p b.
Proof.
  induction a as [|c a IH]; cbn; [reflexivity|]. now rewrite IH, andb_assoc.
Qed.

Lemma split_nonempty (sep : ascii) (s : string) : split sep s <> [].
Proof.
  destruct s as [|c s]; cbn; [discriminate|].
  destruct (Ascii.eqb c sep); [discriminate|].
  destruct (split sep s); discriminate.
Qed.

Lemma split_single (sep : ascii) (s : string) :
  forall y, split sep s = [y] -> s = y /\ noChar sep y = true.
Proof.
  induction s as [|c s IH]; intros y H; cbn in H.
  - injection H as <-. now split.
  - destruct (Ascii.eqb c sep) eqn:E.
    + injection H as _ H. now apply split_nonempty in H.
    + destruct (split sep s) as [|q qs] eqn:Es; [now apply split_nonempty in Es|].
      injection H as <- ->. destruct (IH q eq_refl) as [-> Hq].
      split; [reflexivity|]. unfold noChar in *. cbn. now rewrite E, Hq.
Qed.

(** Two pieces of a split give the text back around the separator. *)
Lemma split_two (sep : ascii) (s : string) :
  forall x y, split sep s = [x; y] ->
  s = (x ++ String sep y)%string /\ noChar sep x = true /\ noChar sep y = true.
Proof.
  induction s as [|c s IH]; intros x y H; cbn in H; [discriminate|].
  destruct (Ascii.eqb_spec c sep) as [->|Hne].
  - injection H as <- H. destruct (split_single sep s y H) as [-> Hy].
    now repeat split.
  - destruct (split sep s) as [|q qs] eqn:Es; [now apply split_nonempty in Es|].
    injection H as <- ->. destruct (IH q y eq_refl) as (-> & Hq & Hy).
    repeat split; [|exact Hy].
    unfold noChar in *. cbn. apply Ascii.eqb_neq in Hne. now rewrite Hne, Hq.
Qed.

End StringFacts.

(** ** The e-mail pattern *)

Section EmailPattern.
Import JsString TextInput.

Lemma dotBeforeLast_split (s : string) :
  dotBeforeLast s = true <->
  exists u v, s = (u ++ String "." v)%string /\ v <> EmptyString.
Proof.
  split.
  - induction s as [|c s IH]; cbn; [discriminate|].
    destruct s as [|d t]; [discriminate|].
    destruct (Ascii.eqb_spec c ".") as [->|Hne]; cbn [orb].
    + intros _. exists EmptyString, (String d t). split; [reflexivity|discriminate].
    + intros H. destruct (IH H) as (u & v & E & Hv).
      exists (String c u), v. cbn. now rewrite E.
  - intros (u & v & -> & Hv). induction u as [|c u IH]; cbn.
    + destruct v; [congruence|reflexivity].
    + destruct (u ++ String "." v)%string eqn:E; [destruct u; discriminate|].
      rewrite IH. apply orb_true_r.
Qed.

Lemma emailChar_noAt (s : string) :
  allChars emailChar s = true -> noChar "@" s = true.
Proof.
  unfold noChar. induction s as [|c s IH]; cbn; [reflexivity|].
  intros H. apply andb_prop in H as [Hc Hs]. rewrite (IH Hs), andb_true_r.
  unfold emailChar in Hc. now apply andb_prop in Hc.
Qed.

(** X1. The e-mail test accepts exactly the texts [a@b.c] in which [a],
    [b] and [c] are non-empty and contain neither white space nor ["@"]. *)
Theorem emailRegex_accepts_exactly (text : string) :
  emailRegex_test text = true <->
  exists a b c,
    text = (a ++ "@" ++ b ++ "." ++ c)%string /\
    a <> EmptyString /\ b <> EmptyString /\ c <> EmptyString /\
    allChars emailChar a = true /\ allChars emailChar b = true /\
    allChars emailChar c = true.
Proof.
  unfold emailRegex_test. split.
  - destruct (split "@" text) as [|l [|d [|e r]]] eqn:E; try discriminate.
    intros H. apply andb_prop in H as [H Hdot].
    apply andb_prop in H as [H Hd]. apply andb_prop in H as [Hl Hla].
    destruct (split_two "@" text l d E) as (-> & _ & _).
    destruct d as [|d0 t]; [discriminate|].
    apply dotBeforeLast_split in Hdot as (u & v & -> & Hv).
    cbn [allChars] in Hd. apply andb_prop in Hd as [Hd0 Hd].
    rewrite allChars_append in Hd. apply andb_prop in Hd as [Hu Hv'].
    cbn [allChars] in Hv'. apply andb_prop in Hv' as [_ Hv'].
    exists l, (String d0 u), v. repeat split; try assumption.
    + destruct l; [discriminate|discriminate].
    + discriminate.
    + cbn [allChars]. now rewrite Hd0, Hu.
  - intros (a & b & c & -> & Ha & Hb & Hc & Aa & Ab & Ac).
    change (a ++ "@" ++ b ++ "." ++ c)%string
      with (a ++ String "@" (b ++ String "." c))%string.
    assert (Hdom : allChars emailChar (b ++ String "." c) = true).
    { rewrite allChars_append, Ab. cbn [allChars andb]. now rewrite Ac. }
    rewrite (split_append "@" a _ (emailChar_noAt a Aa)).
    rewrite (split_noChar "@" _ (emailChar_noAt _ Hdom)).
    rewrite Aa, Hdom. destruct a as [|a0 a]; [congruence|]. cbn [truthy andb].
    destruct b as [|b0 b]; [congruence|]. cbn [append].
    apply dotBeforeLast_split. now exists b, c.
Qed.

End EmailPattern.

(** ** The text field over a session *)

Section TextFieldSessions.
Import JsString TextInput TextInputEvents.

Lemma validate_wellTyped (rules : list ValidationRule) (text : string) :
  forallb wellTyped rules = true ->
  validate rules text = Normal (failingMessages rules text).
Proof.
  intros H. unfold validate. now rewrite validate_from.
Qed.

Lemma failingMessages_empty (rules : list ValidationRule) (text : string) :
  isEmpty (failingMessages rules text) = true <->
  forall rule, In rule rules -> ruleFails text rule = false.
Proof.
  unfold failingMessages. induction rules as [|r rs IH]; cbn.
  - split; [intros _ ? []|reflexivity].
  - destruct (ruleFails text r) eqn:F; cbn.
    + split; [discriminate|]. intros H. specialize (H r (or_introl eq_refl)). congruence.
    + rewrite IH. split.
      * intros H rule [<-|Hin]; [exact F | now apply H].
      * intros H rule Hin. apply H. now right.
Qed.

(** X2. Validating against two rule lists put one after the other
    gives the messages of the first list followed by those of the
    second. *)
Theorem validate_concatenated_rules (r1 r2 : list ValidationRule) (text : string) :
  forallb wellTyped r1 = true -> forallb wellTyped r2 = true ->
  exists m1 m2,
    validate r1 text = Normal m1 /\ validate r2 text = Normal m2 /\
    validate (r1 ++ r2) text = Normal (m1 ++ m2)%list.
Proof.
  intros H1 H2.
  exists (failingMessages r1 text), (failingMessages r2 text).
  rewrite !validate_wellTyped; try assumption.
  - repeat split. unfold failingMessages. now rewrite filter_app, map_app.
  - rewrite forallb_app. now rewrite H1, H2.
Qed.

(** X3. Leaving the field marks it touched and unfocused, keeps the
    value, stores the messages of the rules that fail on the current
    value, and reports the field valid to the parent exactly when no rule
    fails. *)
Theorem handleBlur_reports_validity (p : Props) (st : State) :
  forallb wellTyped (validators p) = true ->
  exists st' ok,
    handleBlur p st = Normal (st', [onValidate ok]) /\
    isTouched st' = true /\ isFocused st' = false /\
    internalValue st' = internalValue st /\
    errors st' = failingMessages (validators p) (currentValue p st) /\
    (ok = true <->
     forall rule, In rule (validators p) -> ruleFails (currentValue p st) rule = false).
Proof.
  intros Hwt. unfold handleBlur. rewrite (validate_wellTyped _ _ Hwt). cbn [bindC].
  eexists _, _. split; [reflexivity|]. repeat split; try reflexivity;
    now apply failingMessages_empty.
Qed.

Lemma step_uncontrolled (p : Props) (st : State) (e : Event) :
  forallb wellTyped (validators p) = true -> externalValue p = None ->
  sessionInvariant p st ->
  exists st' calls,
    step p st e = Normal (st', calls) /\ sessionInvariant p st' /\
    isTouched st' = (isTouched st || match e with blur => true | _ => false end) /\
    internalValue st' = match e with change t => t | _ => internalValue st end.
Proof.
  intros Hwt Hext Hinv. unfold sessionInvariant in *.
  destruct e as [t| |]; cbn [step].
  - unfold handleChangeText, isControlled. rewrite Hext. cbn [negb].
    destruct (isTouched st) eqn:Ht.
    + rewrite (validate_wellTyped _ _ Hwt). cbn [bindC].
      eexists _, _. split; [reflexivity|]. cbn. now rewrite Ht.
    + eexists _, _. split; [reflexivity|]. cbn. now rewrite Ht.
  - eexists _, _. split; [reflexivity|]. cbn. rewrite orb_false_r. now split.
  - unfold handleBlur, currentValue. rewrite Hext, (validate_wellTyped _ _ Hwt).
    cbn [bindC]. eexists _, _. split; [reflexivity|]. cbn. now rewrite orb_true_r.
Qed.

Lemma run_uncontrolled (p : Props) (events : list Event) :
  forallb wellTyped (validators p) = true -> externalValue p = None ->
  forall st, sessionInvariant p st ->
  exists st' calls,
    run p st events = Normal (st', calls) /\ sessionInvariant p st' /\
    isTouched st' = (isTouched st || existsb (fun e => match e with blur => true | _ => false end) events) /\
    internalValue st' = lastTyped (internalValue st) events.
Proof.
  intros Hwt Hext. induction events as [|e es IH]; intros st Hinv.
  - exists st, []. cbn. rewrite orb_false_r. now repeat split.
  - destruct (step_uncontrolled p st e Hwt Hext Hinv) as (st1 & c1 & E1 & I1 & T1 & V1).
    destruct (IH st1 I1) as (st2 & c2 & E2 & I2 & T2 & V2).
    exists st2, (c1 ++ c2)%list. cbn [run]. rewrite E1. cbn [bindC fst snd].
    rewrite E2. cbn [bindC fst snd]. split; [reflexivity|]. split; [exact I2|].
    split.
    + rewrite T2, T1. cbn [existsb]. now rewrite orb_assoc.
    + rewrite V2, V1. unfold lastTyped. cbn [fold_left]. now destruct e.
Qed.

(** X4. For a field that owns its value, after any sequence of change,
    focus and blur events the handlers have returned normally, the value
    is the text typed last, the field is touched exactly when a blur
    occurred, and its errors are the messages of the rules failing on the
    value once touched and none before. *)
Theorem uncontrolled_session_state (p : Props) (events : list Event) :
  forallb wellTyped (validators p) = true ->
  externalValue p = None ->
  exists st calls,
    run p initialState events = Normal (st, calls) /\
    internalValue st = lastTyped "" events /\
    isTouched st = existsb (fun e => match e with blur => true | _ => false end) events /\
    errors st = (if isTouched st then failingMessages (validators p) (internalValue st)
                 else []).
Proof.
  intros Hwt Hext.
  destruct (run_uncontrolled p events Hwt Hext initialState eq_refl)
    as (st & calls & E & I & T & V).
  exists st, calls. now repeat split.
Qed.

(** X5. The error and the success indication exclude each other, so the
    border is never chosen between two applicable colours. *)
Theorem error_and_success_exclusive (p : Props) (st : State) :
  hasError st && isSuccess p st = false /\
  (hasError st = true -> forall disabled,
      getBorderColor disabled p st = if disabled then "#E0E0E0" else "#F44336") /\
  (isSuccess p st = true -> forall disabled,
      getBorderColor disabled p st = if disabled then "#E0E0E0" else "#4CAF50").
Proof.
  unfold getBorderColor, hasError, isSuccess.
  destruct (isTouched st), (errors st) as [|e es]; cbn; repeat split;
    try discriminate; intros H [|]; try reflexivity; now rewrite H.
Qed.

End TextFieldSessions.

(** ** Dates the field accepts *)

Section AcceptedDates.
Import JsString JsDate CalendarPicker CalendarModal.

Lemma daysFromCivil_year_mono (y1 y2 m d : Z) :
  y1 < y2 -> daysFromCivil y1 m d < daysFromCivil y2 m d.
Proof.
  intros H. unfold daysFromCivil. destruct (m <=? 2); Z.div_mod_to_equations; lia.
Qed.

Lemma daysFromCivil_year_inj (y1 y2 m d : Z) :
  daysFromCivil y1 m d = daysFromCivil y2 m d -> y1 = y2.
Proof.
  intros H. destruct (Z.lt_trichotomy y1 y2) as [L|[E|L]]; [|exact E|];
    apply (daysFromCivil_year_mono _ _ m d) in L; lia.
Qed.

Lemma parseDate_elim (f : DateFormat) (text : string) (date : Date) :
  parseDate f text = Some date ->
  exists day month year,
    truthy (trim text) = true /\
    components f text = Some (Some day, Some month, Some year) /\
    date = newDate (Some year) (Some month) (Some day) /\
    getDate date = Some day /\ getMonth date = Some month /\
    getFullYear date = Some year.
Proof.
  unfold parseDate.
  destruct (truthy (trim text)); cbn [negb]; [|discriminate].
  destruct (components f text) as [[[day month] year]|]; [|discriminate].
  destruct (_ || _) eqn:E; [discriminate|].
  intros H. injection H as <-.
  apply orb_false_elim in E as [E Hy].
  apply orb_false_elim in E as [E Hm].
  apply orb_false_elim in E as [_ Hd].
  assert (S : forall a b, strictNotEqual a b = false -> a = b /\ exists z, b = Some z).
  { intros [a|] [b|]; cbn; try discriminate.
    intros H. apply negb_false_iff, Z.eqb_eq in H. subst. eauto. }
  apply S in Hy as [Hy [y ->]]. apply S in Hm as [Hm [m ->]].
  apply S in Hd as [Hd [d ->]].
  exists d, m, y. now repeat split.
Qed.

Lemma split_pieces_noChar (sep : ascii) (s : string) :
  Forall (fun piece => noChar sep piece = true) (split sep s).
Proof.
  induction s as [|c s IH]; cbn.
  - now repeat constructor.
  - destruct (Ascii.eqb c sep) eqn:E.
    + constructor; [reflexivity | exact IH].
    + destruct (split sep s) as [|q qs]; [now repeat constructor; unfold noChar; cbn; rewrite E|].
      inversion IH as [|? ? Hq Hqs]; subst. constructor; [|exact Hqs].
      unfold noChar in *. cbn. now rewrite E, Hq.
Qed.

Lemma readDigits_nonneg (s : string) :
  forall acc seen, 0 <= acc -> 0 <= fst (readDigits s acc seen).
Proof.
  induction s as [|c s IH]; intros acc seen H; cbn [readDigits fst]; [exact H|].
  destruct (isDigit c) eqn:D; [|exact H].
  apply IH. unfold isDigit in D. apply andb_prop in D as [D _].
  apply Nat.leb_le in D. unfold digitValue. lia.
Qed.

Lemma trimStart_noChar (sep : ascii) (s : string) :
  noChar sep s = true -> noChar sep (trimStart s) = true.
Proof.
  unfold noChar. induction s as [|c s IH]; cbn; [reflexivity|].
  intros H. destruct (isWhiteSpace c); [|exact H].
  apply andb_prop in H as [_ H]. now apply IH.
Qed.

(** A text without ["-"] is never read as a negative number. *)
Lemma parseInt_nonneg (s : string) (z : Z) :
  noChar "-" s = true -> parseInt s = Some z -> 0 <= z.
Proof.
  intros Hs. apply trimStart_noChar in Hs. unfold parseInt.
  destruct (trimStart s) as [|c t].
  - cbn. discriminate.
  - assert (R : forall u, match readDigits u 0 false with
                          | (n, true) => Some n
                          | (_, false) => None
                          end = Some z -> 0 <= z).
    { intros u H. pose proof (readDigits_nonneg u 0 false (Z.le_refl 0)) as N.
      destruct (readDigits u 0 false) as [n [|]]; [|discriminate].
      injection H as <-. exact N. }
    destruct c as [[] [] [] [] [] [] [] []]; try (apply R);
      unfold noChar in Hs; cbn in Hs; discriminate Hs.
Qed.

(** What the field accepts is the local midnight of a day within the
    range of [Date], and the year it read is the year of that day; the
    year is not in 0..99, and is at least 100 in [YYYY-MM-DD]. *)
Lemma parseDate_accepted (f : DateFormat) (text : string) (date : Date) :
  parseDate f text = Some date ->
  exists n,
    date = dayStart n /\ Z.abs (n * msPerDay) <= maxTime /\
    let year := fst (fst (civilFromDays n)) in
    ~ (0 <= year <= 99) /\ (f = YYYY_MM_DD -> 100 <= year).
Proof.
  intros H. destruct (parseDate_elim f text date H)
    as (day & month & year & _ & Hc & Hdate & Hd & Hm & Hy).
  unfold newDate in Hdate.
  set (yr := if (0 <=? year) && (year <=? 99) then 1900 + year else year) in *.
  set (n := MakeDay yr month day) in *.
  unfold TimeClip in Hdate.
  destruct (Z.abs (n * msPerDay) <=? maxTime) eqn:R;
    [|subst date; discriminate Hd].
  apply Z.leb_le in R. exists n. split; [exact Hdate|]. split; [exact R|].
  change (DateOf (n * msPerDay)) with (dayStart n) in Hdate. subst date.
  unfold getDate, getMonth, getFullYear in Hd, Hm, Hy.
  rewrite civilOf_dayStart in Hd, Hm, Hy.
  pose proof (civilFromDays_inverse n) as Hinv.
  destruct (civilFromDays n) as [[Y M] D]. cbn in Hd, Hm, Hy |- *.
  injection Hd as ->. injection Hm as <-. injection Hy as ->.
  destruct Hinv as (HM & _ & Hinv).
  assert (Eyr : year = yr).
  { apply (daysFromCivil_year_inj year yr M day).
    rewrite Hinv. unfold n. now rewrite MakeDay_civil. }
  assert (Hnot : ~ (0 <= year <= 99)).
  { intros Hr. unfold yr in Eyr.
    replace ((0 <=? year) && (year <=? 99)) with true in Eyr
      by (symmetry; apply andb_true_iff; split; apply Z.leb_le; lia).
    lia. }
  split; [exact Hnot|]. intros ->.
  assert (0 <= year); [|lia].
  unfold components in Hc.
  pose proof (split_pieces_noChar "-" text) as Hp.
  destruct (split "-" text) as [|p0 [|p1 [|p2 [|p3 ps]]]]; try discriminate.
  apply Forall_inv in Hp.
  destruct (parseInt p0) as [y0|] eqn:E0; [|discriminate].
  injection Hc as _ _ <-. now apply (parseInt_nonneg p0).
Qed.

(** The round trip of a day through text, for the years that survive it. *)
Lemma format_parse_day (f : DateFormat) (n : Z) :
  Z.abs (n * msPerDay) <= maxTime ->
  (let year := fst (fst (civilFromDays n)) in
   100 <= year \/ (year < 0 /\ f <> YYYY_MM_DD)) ->
  parseDate f (formatDate f (dayStart n)) = Some (dayStart n).
Proof.
  intros Hrange Hyear.
  pose proof (civilFromDays_inverse n) as Hc.
  destruct (civilFromDays n) as [[y m] d] eqn:E.
  destruct Hc as (Hm & Hd & Hinv). cbn [fst] in Hyear.
  destruct (components_formatDate f n y m d E Hm Hd) as [Hcomp Htrim].
  { destruct Hyear as [H|[_ H]]; [left; lia | now right]. }
  apply (parseDate_intro f _ d (m - 1) y (dayStart n) Htrim Hcomp);
    try (unfold getDate, getMonth, getFullYear; rewrite civilOf_dayStart, E; reflexivity).
  unfold newDate.
  replace ((0 <=? y) && (y <=? 99)) with false
    by (symmetry; apply andb_false_iff;
        destruct Hyear as [H|[H _]];
        [right; apply Z.leb_gt; lia | left; apply Z.leb_gt; lia]).
  rewrite (MakeDay_civil y m d Hm), Hinv. unfold TimeClip, dayStart.
  now replace (Z.abs (n * msPerDay) <=? maxTime) with true
    by (symmetry; now apply Z.leb_le).
Qed.

(** X6. Whatever text the field accepts, the date is the local midnight
    of a day within the range of [Date] whose year is not in 0..99: a
    year written with one or two digits is never accepted. In
    [YYYY-MM-DD] the year is at least 100. *)
Theorem parseDate_never_accepts_two_digit_year
    (f : DateFormat) (text : string) (date : Date) :
  parseDate f text = Some date ->
  exists n year,
    date = dayStart n /\ Z.abs (n * msPerDay) <= maxTime /\
    getFullYear date = Some year /\
    ~ (0 <= year <= 99) /\ (f = YYYY_MM_DD -> 100 <= year).
Proof.
  intros H. destruct (parseDate_accepted f text date H) as (n & -> & R & Hy & Hiso).
  exists n, (fst (fst (civilFromDays n))). repeat split; try assumption.
  unfold getFullYear. now rewrite civilOf_dayStart.
Qed.

(** X7. Formatting the date of an accepted text gives a text that is
    accepted as the same date: the formatted text is a canonical form. *)
Theorem formatDate_canonical_form (f : DateFormat) (text : string) (date : Date) :
  parseDate f text = Some date ->
  parseDate f (formatDate f date) = Some date.
Proof.
  intros H. destruct (parseDate_accepted f text date H) as (n & -> & R & Hy & Hiso).
  apply format_parse_day; [exact R|]. cbv zeta in *.
  destruct f; try (assert (100 <= fst (fst (civilFromDays n))) by (now apply Hiso); now left);
    destruct (Z_lt_le_dec (fst (fst (civilFromDays n))) 0);
    [right; split; [assumption|discriminate] | left; lia
    |right; split; [assumption|discriminate] | left; lia].
Qed.

End AcceptedDates.

(** ** Validation and selection in the date field *)

Section DateSelection.
Import JsString JsDate CalendarPicker CalendarModal.

(** X8. [validateDate] reports no error exactly when the text is blank
    and the field is not required, or the text is accepted as a date
    that is neither before [minDate] nor after [maxDate]. *)
Theorem validateDate_accepts_exactly (p : Props) (text : string) :
  validateDate p text = "" <->
  (blank text = true /\ required p = false) \/
  (exists date,
      parseDate (format p) text = Some date /\
      (forall lo, minDate p = Some lo -> lessThan date lo = false) /\
      (forall hi, maxDate p = Some hi -> lessThan hi date = false)).
Proof.
  unfold validateDate, blank.
  destruct (truthy (trim text)) eqn:B; cbn [negb andb].
  - rewrite andb_false_r.
    destruct (parseDate (format p) text) as [date|].
    + unfold violated.
      destruct (minDate p) as [lo|], (maxDate p) as [hi|];
        try destruct (lessThan date lo) eqn:L; try destruct (lessThan hi date) eqn:H;
        (split;
         [ intros E; try discriminate E; right; exists date;
           repeat split; intros ? [= <-]; assumption
         | intros [[? _]|(d & [= <-] & Hlo & Hhi)]; try discriminate;
           try (specialize (Hlo _ eq_refl)); try (specialize (Hhi _ eq_refl));
           congruence ]).
    + split; [discriminate|]. intros [[? _]|(d & ? & _)]; discriminate.
  - rewrite andb_true_r. destruct (required p).
    + split; [discriminate|]. intros [[_ ?]|(d & E & _)]; [discriminate|].
      now rewrite (parseDate_blank _ _ B) in E.
    + split; [now left | reflexivity].
Qed.

Lemma formatDate_same_day (f : DateFormat) (t : Z) :
  formatDate f (DateOf t) = formatDate f (dayStart (t / msPerDay)).
Proof.
  unfold formatDate, getDate, getMonth, getFullYear.
  rewrite civilOf_dayStart. reflexivity.
Qed.

Lemma day_of_time_in_range (t : Z) :
  Z.abs t <= maxTime -> Z.abs (t / msPerDay * msPerDay) <= maxTime.
Proof.
  unfold maxTime, msPerDay. intros H. Z.div_mod_to_equations. lia.
Qed.

(** The error after picking a day in the calendar and then leaving the
    field is what [validateDate] says of the picked day. *)
Lemma select_then_blur (p : Props) (st : State) (n : Z) :
  Z.abs (n * msPerDay) <= maxTime ->
  (let year := fst (fst (civilFromDays n)) in
   100 <= year \/ (year < 0 /\ format p <> YYYY_MM_DD)) ->
  let picked := after (handleDateSelect p st (dayStart n)) in
  error (after (handleBlur p picked)) =
  match violated (minDate p) (fun lo => lessThan (dayStart n) lo) with
  | Some lo => "Date must be after " ++ formatDate (format p) lo
  | None =>
      match violated (maxDate p) (fun hi => lessThan hi (dayStart n)) with
      | Some hi => "Date must be before " ++ formatDate (format p) hi
      | None => ""
      end
  end%string.
Proof.
  intros R Y. cbn. unfold validateDate.
  pose proof (format_parse_day (format p) n R Y) as P.
  destruct (truthy (trim (formatDate (format p) (dayStart n)))) eqn:B.
  - rewrite andb_false_r. cbn [negb]. now rewrite P.
  - now rewrite (parseDate_blank _ _ B) in P.
Qed.



(** X11. The calendar marks no day when the text is not accepted, and
    otherwise the one day the text denotes: for a year that is not
    negative, reading the marked key as [YYYY-MM-DD] gives the date of
    the text. *)
Theorem markedDates_marks_parsed_day (p : Props) (st : State) :
  markedDates p st = option_map toCalendarFormat (parseDate (format p) (textValue st)) /\
  (forall date year,
      parseDate (format p) (textValue st) = Some date ->
      getFullYear date = Some year -> 0 <= year ->
      exists key, markedDates p st = Some key /\
                  parseDate YYYY_MM_DD key = Some date).
Proof.
  assert (E : markedDates p st =
              option_map toCalendarFormat (parseDate (format p) (textValue st))).
  { unfold markedDates. destruct (textValue st) as [|c t] eqn:T; cbn [truthy negb].
    - reflexivity.
    - now destruct (parseDate (format p) (String c t)). }
  split; [exact E|]. intros date year H Hy Hnn.
  exists (toCalendarFormat date). rewrite E, H. split; [reflexivity|].
  destruct (parseDate_accepted _ _ _ H) as (n & -> & R & Hnot & _).
  unfold getFullYear in Hy. rewrite civilOf_dayStart in Hy. cbv zeta in Hnot.
  change (toCalendarFormat (dayStart n)) with (formatDate YYYY_MM_DD (dayStart n)).
  apply format_parse_day; [exact R|]. cbv zeta.
  remember (civilFromDays n) as c eqn:Ec. cbn [option_map] in Hy.
  injection Hy as <-. left. lia.
Qed.

End DateSelection.

(** ** Limits of the file selection *)

Section FileLimitsFacts.
Import JsString FilePicker FileLimits.

Variable formatFileSize : Z -> string.

Lemma fold_size_from (l : list SelectedFile) :
  forall a, fold_left (fun sum file => sum + size file) l a = a + totalSize l.
Proof.
  unfold totalSize. induction l as [|f l IH]; intros a; cbn; [lia|].
  rewrite (IH (a + size f)), (IH (size f)). lia.
Qed.

Lemma totalSize_cons (f : SelectedFile) (l : list SelectedFile) :
  totalSize (f :: l) = size f + totalSize l.
Proof. unfold totalSize at 1. cbn. now rewrite fold_size_from. Qed.

Lemma find_tooLarge_none (limit : Z) (l : list SelectedFile) :
  find (fun file => size file >? limit) l = None <->
  Forall (fun file => size file <= limit) l.
Proof.
  induction l as [|f l IH]; cbn.
  - split; [constructor | reflexivity].
  - rewrite Z.gtb_ltb. destruct (limit <? size f) eqn:E.
    + apply Z.ltb_lt in E. split; [discriminate|].
      intros H. apply Forall_inv in H. lia.
    + apply Z.ltb_ge in E. rewrite IH. split.
      * now constructor.
      * intros H. now inversion H.
Qed.

Lemma in_prefix {A} (x : A) (n : nat) (l : list A) :
  In x (firstn n l) -> In x l.
Proof.
  revert l. induction n as [|n IH]; intros [|y l]; cbn; try tauto.
  intros [H|H]; [now left | right; now apply IH].
Qed.

Lemma append_nonempty (a : string) (c : ascii) (b : string) :
  (a ++ String c b)%string <> EmptyString.
Proof. destruct a; discriminate. Qed.

Lemma validateFiles_ok (p : Props) (selectedFiles : list SelectedFile) :
  validateFiles formatFileSize p selectedFiles = "" <->
  (required p = true -> selectedFiles <> []) /\ withinLimits p selectedFiles.
Proof.
  unfold validateFiles, withinLimits.
  assert (Hlen : (lengthOf selectedFiles =? 0) = true <-> selectedFiles = []).
  { unfold lengthOf. destruct selectedFiles; cbn; split; congruence. }
  destruct (required p && (lengthOf selectedFiles =? 0)) eqn:Rq.
  - apply andb_prop in Rq as [R L]. apply Hlen in L.
    split; [discriminate|]. intros [H _]. now specialize (H R).
  - assert (Hreq : required p = true -> selectedFiles <> []).
    { intros R E. apply Hlen in E. rewrite R, E in Rq. discriminate. }
    rewrite Z.gtb_ltb. destruct (maxFiles p <? lengthOf selectedFiles) eqn:C.
    + apply Z.ltb_lt in C. split; [discriminate|]. intros (_ & H & _). lia.
    + apply Z.ltb_ge in C.
      destruct (find _ selectedFiles) as [big|] eqn:F.
      * split; [intros H; now apply append_nonempty in H|].
        intros (_ & _ & H & _). apply find_tooLarge_none in H. congruence.
      * apply find_tooLarge_none in F.
        rewrite Z.gtb_ltb.
        destruct (maxTotalSize p <? totalSize selectedFiles) eqn:T.
        -- apply Z.ltb_lt in T. split; [discriminate|]. intros (_ & _ & _ & H). lia.
        -- apply Z.ltb_ge in T. split; [now intros _|reflexivity].
Qed.

(** X12. [validateFiles] reports no error exactly when the list is not
    empty if a file is required, has at most [maxFiles] entries, none
    above [maxSizePerFile], and a total of at most [maxTotalSize]. *)
Theorem validateFiles_accepts_exactly (p : Props) (selectedFiles : list SelectedFile) :
  validateFiles formatFileSize p selectedFiles = "" <->
  (required p = true -> selectedFiles <> []) /\ withinLimits p selectedFiles.
Proof. apply validateFiles_ok. Qed.

Lemma processAssets_filter (p : Props) (assets : list Asset) :
  fst (processAssets formatFileSize p assets) =
    map selectedOf (filter (accepted p) assets) /\
  List.length (snd (processAssets formatFileSize p assets)) =
    List.length (filter (fun a => negb (accepted p a)) assets) /\
  Forall (fun e => exists title text, e = alert title text)
         (snd (processAssets formatFileSize p assets)).
Proof.
  induction assets as [|a rest IH]; cbn [processAssets].
  - repeat split. constructor.
  - destruct (processAssets formatFileSize p rest) as [newFiles alerts].
    cbn [fst snd] in IH. destruct IH as (IH1 & IH2 & IH3).
    cbn [filter].
    destruct (isFileTypeAllowed p (assetMimeType a) (assetName a)) eqn:Ty; cbn [negb].
    + destruct (tooLarge p a) eqn:Tl.
      * assert (Ha : accepted p a = false) by (unfold accepted; now rewrite Ty, Tl).
        rewrite Ha. cbn [negb fst snd List.length].
        split; [exact IH1|]. split; [now rewrite IH2|]. constructor; eauto.
      * assert (Ha : accepted p a = true) by (unfold accepted; now rewrite Ty, Tl).
        rewrite Ha. cbn [negb fst snd map].
        split; [now rewrite IH1|]. split; [exact IH2 | exact IH3].
    + assert (Ha : accepted p a = false) by (unfold accepted; now rewrite Ty).
      rewrite Ha. cbn [negb fst snd List.length].
      split; [exact IH1|]. split; [now rewrite IH2|]. constructor; eauto.
Qed.

(** X13. The loop over the picked documents keeps exactly the candidates
    of an allowed type that are not too large, in the order picked, and
    shows one alert for each of the others and nothing else. *)
Theorem processAssets_keeps_accepted (p : Props) (assets : list Asset) :
  fst (processAssets formatFileSize p assets) =
    map selectedOf (filter (accepted p) assets) /\
  List.length (snd (processAssets formatFileSize p assets)) =
    List.length (filter (fun a => negb (accepted p a)) assets) /\
  Forall (fun e => exists title text, e = alert title text)
         (snd (processAssets formatFileSize p assets)).
Proof. apply processAssets_filter. Qed.

(** The shape of the outcome of [handlePickFiles]: nothing is committed,
    or the first candidates that fit are appended and the result has
    passed validation. *)
Lemma handlePickFiles_outcome (p : Props) (st : State) (result : PickerResult) :
  let r := handlePickFiles formatFileSize p st result in
  (files (fst r) = files st /\ forall l, ~ In (onChange l) (snd r)) \/
  (exists assets added,
      result = Assets assets /\
      lengthOf (files st) < maxFiles p /\
      added = firstn (Z.to_nat (maxFiles p) - List.length (files st))
                     (map selectedOf (filter (accepted p) assets)) /\
      files (fst r) = (files st ++ added)%list /\
      validateFiles formatFileSize p (files (fst r)) = "" /\
      error (fst r) = "" /\
      In (onChange (files (fst r))) (snd r) /\
      forall l, In (onChange l) (snd r) -> l = files (fst r)).
Proof.
  cbv zeta. unfold handlePickFiles.
  destruct (lengthOf (files st) >=? maxFiles p) eqn:Full.
  - left. split; [reflexivity|]. intros l [H|[]]. discriminate H.
  - rewrite Z.geb_leb in Full. apply Z.leb_gt in Full.
    destruct result as [|assets|].
    + left. split; [reflexivity | intros l []].
    + destruct (processAssets_filter p assets) as (F1 & _ & F3).
      destruct (processAssets formatFileSize p assets) as [newFiles alerts].
      cbn [fst snd] in F1, F3.
      assert (Hal : forall l, ~ In (onChange l) alerts).
      { intros l Hin. rewrite Forall_forall in F3.
        destruct (F3 _ Hin) as (? & ? & ?). discriminate. }
      destruct (lengthOf newFiles =? 0); [left; split; [reflexivity | exact Hal]|].
      set (updated := firstn (Z.to_nat (maxFiles p)) (files st ++ newFiles)%list).
      destruct (validateFiles formatFileSize p updated) eqn:V; cbn [truthy].
      * right. exists assets, (firstn (Z.to_nat (maxFiles p) - List.length (files st)) newFiles).
        cbn [fst snd files error setFiles setError setIsTouched].
        assert (Hup : updated =
                      (files st ++ firstn (Z.to_nat (maxFiles p) - List.length (files st))
                                          newFiles)%list).
        { unfold updated. rewrite firstn_app. f_equal.
          apply firstn_all2. unfold lengthOf in Full. lia. }
        split; [reflexivity|]. split; [exact Full|]. split; [now rewrite F1|].
        split; [exact Hup|]. split; [exact V|]. split; [reflexivity|]. split.
        -- apply in_or_app. right. now left.
        -- intros l Hin. apply in_app_or in Hin as [Hin|[Hin|[]]].
           ++ now apply Hal in Hin.
           ++ now injection Hin as <-.
      * left. split; [reflexivity | exact Hal].
    + left. split; [reflexivity|]. intros l [H|[]]. discriminate H.
Qed.


(** X15. Whatever the picker answers, [handlePickFiles] either leaves
    the files as they are and does not call [onChange], or commits a
    list that is within all limits, clears the error and calls
    [onChange] with exactly that list. In particular a selection within
    the limits stays within the limits. *)
Theorem handlePickFiles_commits_only_valid (p : Props) (st : State) (result : PickerResult) :
  let r := handlePickFiles formatFileSize p st result in
  ((files (fst r) = files st /\ forall l, ~ In (onChange l) (snd r)) \/
   (withinLimits p (files (fst r)) /\ error (fst r) = "" /\
    In (onChange (files (fst r))) (snd r) /\
    forall l, In (onChange l) (snd r) -> l = files (fst r))) /\
  (withinLimits p (files st) -> withinLimits p (files (fst r))) /\
  isTouched (fst r) = true.
Proof.
  cbv zeta.
  assert (O : (files (fst (handlePickFiles formatFileSize p st result)) = files st /\
               forall l, ~ In (onChange l) (snd (handlePickFiles formatFileSize p st result))) \/
              (withinLimits p (files (fst (handlePickFiles formatFileSize p st result))) /\
               error (fst (handlePickFiles formatFileSize p st result)) = "" /\
               In (onChange (files (fst (handlePickFiles formatFileSize p st result))))
                  (snd (handlePickFiles formatFileSize p st result)) /\
               forall l, In (onChange l) (snd (handlePickFiles formatFileSize p st result)) ->
                         l = files (fst (handlePickFiles formatFileSize p st result)))).
  { destruct (handlePickFiles_outcome p st result)
      as [H|(assets & added & _ & _ & _ & _ & V & E & I & U)]; [now left|].
    right. apply validateFiles_ok in V. destruct V as [_ W].
    split; [exact W|]. split; [exact E|]. split; [exact I | exact U]. }
  split; [exact O|]. split.
  - intros W. destruct O as [[-> _]|[W' _]]; assumption.
  - unfold handlePickFiles.
    destruct (lengthOf (files st) >=? maxFiles p); [reflexivity|].
    destruct result as [|assets|]; try reflexivity.
    destruct (processAssets formatFileSize p assets) as [newFiles alerts].
    destruct (lengthOf newFiles =? 0); [reflexivity|].
    destruct (truthy _); reflexivity.
Qed.

Lemma removeAt_firstn_skipn {A} (index : nat) (l : list A) :
  removeAt index l = (firstn index l ++ skipn (S index) l)%list.
Proof.
  revert index. induction l as [|x l IH]; intros [|i]; cbn; try reflexivity.
  now rewrite IH.
Qed.

Lemma removeAt_length {A} (index : nat) (l : list A) :
  List.length (removeAt index l) =
  if (index <? List.length l)%nat then Nat.pred (List.length l) else List.length l.
Proof.
  revert index. induction l as [|x l IH]; intros [|i]; cbn [removeAt List.length];
    try reflexivity.
  rewrite IH. change (S i <? S (List.length l))%nat with (i <? List.length l)%nat.
  destruct (i <? List.length l)%nat eqn:E; [|reflexivity].
  apply Nat.ltb_lt in E. destruct l; [inversion E | reflexivity].
Qed.

Lemma removeAt_withinLimits (p : Props) (index : nat) (l : list SelectedFile) :
  Forall (fun file => 0 <= size file) l ->
  withinLimits p l -> withinLimits p (removeAt index l).
Proof.
  unfold withinLimits, lengthOf. intros Hnn (Hc & Hs & Ht).
  assert (Hsub : Forall (fun file => size file <= maxSizePerFile p) (removeAt index l) /\
                 totalSize (removeAt index l) <= totalSize l).
  { clear Hc Ht. revert index. induction l as [|x l IH]; intros [|i]; cbn [removeAt].
    - split; [constructor | lia].
    - split; [constructor | lia].
    - inversion Hs; inversion Hnn; subst. split; [assumption|].
      rewrite totalSize_cons. lia.
    - inversion Hs; inversion Hnn; subst.
      destruct (IH ltac:(assumption) ltac:(assumption) i) as [F T].
      split; [now constructor|]. rewrite !totalSize_cons. lia. }
  destruct Hsub as [F T]. split; [|split; [exact F | lia]].
  rewrite removeAt_length. destruct (index <? List.length l)%nat; lia.
Qed.

(** X16. Removing entry [index] takes out that entry and no other, or
    nothing when there is no such entry, and always hands the remaining
    list to the parent. From a selection within the limits, with sizes
    that are not negative, the remaining list is within the limits and
    the only error that can appear is the one of a required field left
    empty. *)
Theorem handleRemoveFile_keeps_limits (p : Props) (st : State) (index : nat) :
  Forall (fun file => 0 <= size file) (files st) ->
  withinLimits p (files st) ->
  let r := handleRemoveFile formatFileSize p st index in
  files (fst r) = (firstn index (files st) ++ skipn (S index) (files st))%list /\
  List.length (files (fst r)) =
    (if (index <? List.length (files st))%nat
     then Nat.pred (List.length (files st)) else List.length (files st)) /\
  snd r = [onChange (files (fst r))] /\
  withinLimits p (files (fst r)) /\
  error (fst r) =
    (if required p && (lengthOf (files (fst r)) =? 0)
     then "At least one file is required" else "").
Proof.
  intros Hnn W. cbv zeta. unfold handleRemoveFile.
  cbn [fst snd files error setError setFiles].
  pose proof (removeAt_withinLimits p index (files st) Hnn W) as W'.
  split; [apply removeAt_firstn_skipn|]. split; [apply removeAt_length|].
  split; [reflexivity|]. split; [exact W'|].
  destruct (required p && (lengthOf (removeAt index (files st)) =? 0)) eqn:R.
  - unfold validateFiles. now rewrite R.
  - apply validateFiles_ok. split; [|exact W'].
    intros Hr E. rewrite Hr, E in R. discriminate R.
Qed.

Lemma toLowerChar_idempotent (c : ascii) : toLowerChar (toLowerChar c) = toLowerChar c.
Proof. destruct c as [[] [] [] [] [] [] [] []]; reflexivity. Qed.

Lemma toLowerCase_idempotent (s : string) : toLowerCase (toLowerCase s) = toLowerCase s.
Proof.
  induction s as [|c s IH]; cbn; [reflexivity|].
  now rewrite toLowerChar_idempotent, IH.
Qed.

(** X17. The extension of a file name is compared in lower case with the
    pattern as it is written: a pattern [.ext] with an upper-case letter
    matches no file name, so when it is the only allowed type every
    document without a mime type is refused. *)
Theorem uppercase_extension_pattern_never_matches (p : Props) (ext filename : string) :
  allowedTypes p = [String "." ext] ->
  toLowerCase ext <> ext ->
  isFileTypeAllowed p None filename = false.
Proof.
  intros Ha Hup. unfold isFileTypeAllowed, includes. rewrite Ha.
  cbn [existsb orb]. 
  replace ("*/*" =? String "." ext)%string with false by reflexivity.
  cbn [orb]. destruct (truthy filename); [|reflexivity]. cbn [andb].
  rewrite orb_false_r.
  replace (startsWith (String "." ext) ".") with true by (cbn; now destruct ext).
  change (slice (String "." ext) 1) with (slice ext 0).
  replace (slice ext 0) with ext by (now destruct ext). cbn [andb].
  apply String.eqb_neq. intros E. apply Hup.
  rewrite E. unfold getFileExtension. apply toLowerCase_idempotent.
Qed.

End FileLimitsFacts.


(** ** The counter over runs of events *)

Section CounterRunsFacts.
Import CounterTimer CounterRuns.
Local Open Scope Q_scope.

Variable ease : Q -> Q.

Lemma runEvents_snoc (p : Props) (c : Counter) (events : list Event) (e : Event) :
  runEvents ease p c (events ++ [e]) = step ease p (runEvents ease p c events) e.
Proof. unfold runEvents. now rewrite fold_left_app. Qed.

Lemma step_restingInvariant (p : Props) (c : Counter) (e : Event) :
  restingInvariant c -> restingInvariant (step ease p c e).
Proof.
  unfold restingInvariant. intros (Hi & Hp & Hq).
  destruct e as [| | | |dt|]; cbn [step].
  - unfold handleStart. destruct (state c) eqn:S; cbn;
      (split; [|split]);
      try exact Hq; intros S'; try discriminate S'; try congruence.
  - unfold handleStop. destruct (state c) eqn:S; cbn;
      (split; [|split]);
      try exact Hq; try exact Hi; try exact Hp; intros S';
      try discriminate S'; try reflexivity;
      try (now apply Hi); try (now apply Hp); congruence.
  - cbn. split; [now split|]. split; [reflexivity | exact Hq].
  - cbn. split; [discriminate|]. split; [discriminate | exact Hq].
  - unfold frame. destruct (animation c) as [a|] eqn:A;
      [|rewrite A; split; [exact Hi|split; [exact Hp|exact Hq]]].
    assert (Hs : state c <> idle /\ state c <> paused).
    { split; intros S; [apply Hi in S as [_ S] | apply Hp in S]; congruence. }
    destruct Hs as [Hs1 Hs2].
    destruct (Qle_bool (duration a) (elapsed a + dt)); cbn;
      (split; [|split]); try contradiction.
    + apply Forall_app. split; [exact Hq|].
      unfold finishedCallback. destruct (hasOnComplete p); repeat constructor.
    + exact Hq.
  - unfold runQueued. destruct (jsQueue c) as [|[s r|r] rest] eqn:Q;
      [split; [exact Hi|split; [exact Hp|rewrite Q; exact Hq]]| |].
    + inversion Hq as [|? ? Hs Hrest]; subst. cbn.
      split; [discriminate|]. split; [discriminate | exact Hrest].
    + inversion Hq as [|? ? _ Hrest]; subst. cbn.
      split; [exact Hi|]. split; [exact Hp | exact Hrest].
Qed.

(** X18. After any sequence of events, a counter that is [idle] has
    progress 0 and a counter that is [idle] or [paused] has no animation
    in flight, so frames do not move it. *)
Theorem idle_and_paused_are_at_rest (p : Props) (events : list Event) :
  let c := runEvents ease p mount events in
  (state c = idle -> progress c = 0 /\ animation c = None) /\
  (state c = paused -> animation c = None) /\
  (state c = idle \/ state c = paused -> forall dt, frame ease p dt c = c).
Proof.
  cbv zeta.
  assert (I : restingInvariant (runEvents ease p mount events)).
  { induction events as [|e events IH] using rev_ind.
    - cbn. repeat split. constructor.
    - rewrite runEvents_snoc. now apply step_restingInvariant. }
  destruct I as (Hi & Hp & _). split; [exact Hi|]. split; [exact Hp|].
  intros S dt. unfold frame.
  assert (A : animation (runEvents ease p mount events) = None)
    by (destruct S as [S|S]; [now apply Hi | now apply Hp]).
  now rewrite A.
Qed.

Lemma queuedCompletions_app (q1 q2 : list Job) :
  queuedCompletions (q1 ++ q2) = (queuedCompletions q1 ++ queuedCompletions q2)%list.
Proof.
  induction q1 as [|[s r|r] q1 IH]; cbn; [reflexivity | exact IH | now rewrite IH].
Qed.

Lemma runs_drop (s f : list nat) (n : nat) :
  NoDup (s ++ f) /\ Forall (fun r => (r < n)%nat) (s ++ f) ->
  NoDup (s ++ []) /\ Forall (fun r => (r < n)%nat) (s ++ []).
Proof.
  intros [N F]. rewrite app_nil_r. split.
  - now apply NoDup_app_remove_r in N.
  - now apply Forall_app in F.
Qed.

Lemma runs_launch (s f : list nat) (n : nat) :
  NoDup (s ++ f) /\ Forall (fun r => (r < n)%nat) (s ++ f) ->
  NoDup (s ++ [n]) /\ Forall (fun r => (r < S n)%nat) (s ++ [n]).
Proof.
  intros [N F]. apply NoDup_app_remove_r in N. apply Forall_app in F as [F _]. split.
  - apply NoDup_app; [exact N | repeat constructor; intros [] |].
    intros a Ha [<-|[]]. rewrite Forall_forall in F. specialize (F _ Ha). lia.
  - apply Forall_app. split.
    + eapply Forall_impl; [|exact F]. cbn. intros; lia.
    + repeat constructor.
Qed.

Lemma step_runsInvariant (p : Props) (c : Counter) (e : Event) :
  runsInvariant c -> runsInvariant (step ease p c e).
Proof.
  unfold runsInvariant, settledRuns, flyingRun. intros I.
  destruct e as [| | | |dt|]; cbn [step].
  - unfold handleStart. destruct (state c); cbn; try exact I;
      now apply runs_launch in I.
  - unfold handleStop. destruct (state c); cbn; try exact I.
    now apply runs_drop in I.
  - cbn. now apply runs_drop in I.
  - cbn. now apply runs_launch in I.
  - unfold frame. destruct (animation c) as [a|] eqn:A; [|now rewrite A].
    destruct (Qle_bool (duration a) (elapsed a + dt)); cbn; [|exact I].
    rewrite queuedCompletions_app. unfold finishedCallback.
    destruct (hasOnComplete p); cbn.
    + now rewrite !app_nil_r, app_assoc.
    + rewrite !app_nil_r. apply runs_drop in I. now rewrite !app_nil_r in I.
  - unfold runQueued. destruct (jsQueue c) as [|[s r|r] rest] eqn:Q;
      [now rewrite Q | exact I |].
    cbn. rewrite map_app. cbn [map ofRun]. cbn [queuedCompletions] in I.
    rewrite <- !app_assoc in *. exact I.
Qed.

(** X19. After any sequence of events [onComplete] has been called at
    most once for each animation that was started, and only for
    animations that were started. *)
Theorem onComplete_at_most_once_per_animation (p : Props) (events : list Event) :
  let c := runEvents ease p mount events in
  NoDup (map ofRun (notifications c)) /\
  Forall (fun n => (ofRun n < started c)%nat) (notifications c).
Proof.
  cbv zeta.
  assert (I : runsInvariant (runEvents ease p mount events)).
  { induction events as [|e events IH] using rev_ind.
    - cbn. split; constructor.
    - rewrite runEvents_snoc. now apply step_runsInvariant. }
  destruct I as [N F]. unfold settledRuns in *.
  apply NoDup_app_remove_r, NoDup_app_remove_r in N.
  apply Forall_app in F as [F _]. apply Forall_app in F as [F _].
  split; [exact N|]. now apply Forall_map in F.
Qed.

Lemma fraction_bounds (t d : Q) : 0 <= t -> t < d -> 0 <= t / d /\ t / d <= 1.
Proof.
  intros Ht Hd. assert (Hpos : 0 < d) by (eapply Qle_lt_trans; eassumption).
  split.
  - apply Qle_shift_div_l; [exact Hpos|]. now rewrite Qmult_0_l.
  - apply Qle_shift_div_r; [exact Hpos|]. rewrite Qmult_1_l. now apply Qlt_le_weak.
Qed.

Lemma fraction_mono (e t d : Q) : e <= t -> 0 < d -> e / d <= t / d.
Proof.
  intros H Hd. unfold Qdiv. apply Qmult_le_compat_r; [exact H|].
  apply Qlt_le_weak. now apply Qinv_lt_0_compat.
Qed.

Lemma zero_fraction (d : Q) : 0 / d == 0.
Proof. unfold Qdiv. apply Qmult_0_l. Qed.

Lemma launch_linearInvariant (ms : Q) (c : Counter) :
  0 <= progress c -> progress c <= 1 ->
  linearInvariant (withTiming 1 ms linear c).
Proof.
  intros H0 H1. unfold linearInvariant. cbn. split; [now split|].
  repeat split; try assumption; try apply Qle_refl.
  rewrite zero_fraction. ring.
Qed.

Lemma frame_linear (p : Props) (dt : Q) (c : Counter) :
  0 <= dt -> linearInvariant c ->
  linearInvariant (frame ease p dt c) /\
  progress c <= progress (frame ease p dt c).
Proof.
  intros Hdt [[H0 H1] Ha]. unfold frame, linearInvariant.
  destruct (animation c) as [a|] eqn:A.
  - destruct Ha as (Hto & Hlin & Hf0 & Hf1 & He & Hprog).
    destruct (Qle_bool (duration a) (elapsed a + dt)) eqn:E; cbn.
    + rewrite Hto. split; [|exact H1]. split; [split; [discriminate | apply Qle_refl] | exact I].
    + assert (Hlt : elapsed a + dt < duration a).
      { apply Qnot_le_lt. intros L. apply Qle_bool_iff in L. congruence. }
      assert (Ht : 0 <= elapsed a + dt) by lra.
      assert (Hd : 0 < duration a) by lra.
      destruct (fraction_bounds _ _ Ht Hlt) as [F0 F1].
      pose proof (fraction_mono (elapsed a) (elapsed a + dt) (duration a)
                    ltac:(lra) Hd) as Fm.
      rewrite Hlin, Hto. cbn [easingFunctions].
      rewrite Hto in Hprog.
      set (x := (elapsed a + dt) / duration a) in *.
      set (y := elapsed a / duration a) in *.
      assert (P1 : 0 <= (1 - fromValue a) * x) by (apply Qmult_le_0_compat; lra).
      assert (P2 : (1 - fromValue a) * x <= (1 - fromValue a) * 1)
        by (rewrite !(Qmult_comm (1 - fromValue a)); apply Qmult_le_compat_r; lra).
      assert (P3 : (1 - fromValue a) * y <= (1 - fromValue a) * x)
        by (rewrite !(Qmult_comm (1 - fromValue a)); apply Qmult_le_compat_r; lra).
      split.
      * split; [split; lra|]. repeat split; try assumption; try reflexivity.
      * rewrite Hprog. lra.
  - rewrite A. split; [split; [now split | exact I] | apply Qle_refl].
Qed.

Lemma step_linearInvariant (p : Props) (c : Counter) (e : Event) :
  easing p = linear ->
  match e with tick dt => 0 <= dt | _ => True end ->
  linearInvariant c -> linearInvariant (step ease p c e).
Proof.
  intros Hlin He Hc. pose proof Hc as [[H0 H1] Ha].
  assert (Z01 : 0 <= 0 /\ 0 <= 1) by (split; discriminate).
  destruct e as [| | | |dt|]; cbn [step].
  - unfold handleStart. rewrite Hlin. destruct (state c); try exact Hc.
    + now apply launch_linearInvariant.
    + now apply launch_linearInvariant.
    + now apply launch_linearInvariant.
  - unfold handleStop. destruct (state c); try exact Hc.
    unfold linearInvariant. cbn. now repeat split.
  - unfold linearInvariant. cbn. repeat split; discriminate.
  - unfold handleRestart. rewrite Hlin. now apply launch_linearInvariant.
  - now apply frame_linear.
  - unfold runQueued. destruct (jsQueue c) as [|[s r|r] rest]; exact Hc.
Qed.

(** X20. With linear easing and frame intervals that are not negative,
    after any sequence of events the progress lies between 0 and 1, and
    a further frame never moves it backwards nor beyond 1. *)
Theorem linear_progress_bounded_and_monotone
    (p : Props) (events : list Event) (dt : Q) :
  easing p = linear ->
  forwardInTime events ->
  0 <= dt ->
  let c := runEvents ease p mount events in
  0 <= progress c /\ progress c <= 1 /\
  progress c <= progress (frame ease p dt c) /\
  progress (frame ease p dt c) <= 1.
Proof.
  intros Hlin Hev Hdt. cbv zeta.
  assert (I : linearInvariant (runEvents ease p mount events)).
  { induction events as [|e events IH] using rev_ind.
    - cbn. unfold linearInvariant. cbn. repeat split; discriminate.
    - rewrite runEvents_snoc. unfold forwardInTime in Hev.
      apply Forall_app in Hev as [Hev He]. apply Forall_inv in He.
      apply step_linearInvariant; [exact Hlin | exact He | now apply IH]. }
  destruct (frame_linear p dt _ Hdt I) as [[[_ F1] _] Fm].
  destruct I as [[H0 H1] _]. now repeat split.
Qed.

Lemma Qle_bool_false (x y : Q) : Qle_bool x y = false -> y < x.
Proof.
  intros E. apply Qnot_le_lt. intros L. apply Qle_bool_iff in L. congruence.
Qed.

(** X21. The configuration is clamped: the duration used lies between
    0.1 s and 3600 s and the target used is not negative; a duration or
    a target within these bounds is used as it is, and a duration of 0
    counts as 1 s. *)
Theorem configuration_is_clamped (p : Props) :
  (1 # 10) <= validDuration p /\ validDuration p <= 3600 /\ 0 <= validTarget p /\
  ((1 # 10) <= durationSec p -> durationSec p <= 3600 ->
   validDuration p == durationSec p) /\
  (durationSec p == 0 -> validDuration p == 1) /\
  (0 <= targetNumber p -> validTarget p == targetNumber p).
Proof.
  unfold validDuration, validTarget, qmax, qmin, orElse.
  destruct (Qeq_bool (durationSec p) 0) eqn:Z;
    [apply Qeq_bool_iff in Z | apply Qeq_bool_neq in Z];
  destruct (Qeq_bool (targetNumber p) 0) eqn:T;
    [apply Qeq_bool_iff in T | apply Qeq_bool_neq in T
    |apply Qeq_bool_iff in T | apply Qeq_bool_neq in T];
  repeat match goal with
         | |- context [Qle_bool 3600 ?y] =>
             let E := fresh "E" in
             destruct (Qle_bool 3600 y) eqn:E;
             [apply Qle_bool_iff in E | apply Qle_bool_false in E]
         | |- context [Qle_bool ?x ?y] =>
             let E := fresh "E" in
             destruct (Qle_bool x y) eqn:E;
             [apply Qle_bool_iff in E | apply Qle_bool_false in E]
         end;
  repeat split; intros; try lra; try contradiction.
Qed.

(** X22. A run that nothing interrupts: from [idle] or [completed] with
    nothing queued, [start], a frame at or after the full duration and
    the two queued calls leave the counter [completed] at progress 1
    with nothing in flight or queued, and [onComplete] has been called
    once more, for the animation just started. *)
Theorem undisturbed_run_completes_once (p : Props) (c : Counter) (dt : Q) :
  hasOnComplete p = true ->
  state c = idle \/ state c = completed ->
  jsQueue c = [] ->
  validDuration p * 1000 <= dt ->
  let c' := runEvents ease p c [start; tick dt; deliver; deliver] in
  state c' = completed /\ progress c' = 1 /\ animation c' = None /\
  jsQueue c' = [] /\
  notifications c' =
    (notifications c ++ [{| ofRun := started c; latestRun := started c |}])%list.
Proof.
  intros Hon Hst Hq Hdt. cbv zeta. unfold runEvents. cbn [fold_left step].
  assert (Hs : handleStart p c =
               withTiming 1 (validDuration p * 1000) (easing p)
                 (assignValue 0 (setState running c)))
    by (unfold handleStart; destruct Hst as [-> | ->]; reflexivity).
  rewrite Hs. unfold frame. cbn [animation withTiming duration elapsed].
  replace (Qle_bool (validDuration p * 1000) (0 + dt)) with true
    by (symmetry; apply Qle_bool_iff; lra).
  unfold finishedCallback. rewrite Hon. cbn. rewrite Hq. cbn. now repeat split.
Qed.

(** X23. Pausing does not lengthen a linear run: after [start], a frame
    at [a] milliseconds, [stop] and [start], the resumed animation is
    still in flight on any frame before the remaining time D - a, and on
    the frame at D - a it has ended at progress 1 and queued its
    completion. *)
Theorem resumed_run_ends_after_remaining_time (p : Props) (a : Q) :
  easing p = linear ->
  0 < a -> a < validDuration p * 1000 ->
  let c := runEvents ease p mount [start; tick a; stop; start] in
  state c = running /\ progress c == a / (validDuration p * 1000) /\
  (forall b, 0 <= b -> b < validDuration p * 1000 - a ->
     animation (frame ease p b c) <> None /\ jsQueue (frame ease p b c) = []) /\
  (let c' := frame ease p (validDuration p * 1000 - a) c in
   animation c' = None /\ progress c' = 1 /\ jsQueue c' = finishedCallback p 1).
Proof.
  intros Hlin Ha0 HaD. cbv zeta. unfold runEvents. cbn [fold_left step].
  set (D := validDuration p * 1000) in *.
  assert (H1 : frame ease p a (handleStart p mount) =
               {| state := running; progress := 0 + (1 - 0) * ((0 + a) / D);
                  animation := Some {| fromValue := 0; toValue := 1; duration := D;
                                       easingOf := linear; elapsed := 0 + a; run := 0 |};
                  jsQueue := []; notifications := []; started := 1 |}).
  { unfold handleStart, frame. cbn. fold D. rewrite Hlin.
    replace (Qle_bool D (0 + a)) with false; [reflexivity|].
    symmetry. destruct (Qle_bool D (0 + a)) eqn:E; [|reflexivity].
    apply Qle_bool_iff in E. lra. }
  rewrite H1. unfold handleStop. cbn [state]. cbn [cancelAnimation setState].
  unfold handleStart. cbn [state progress setState withTiming animation jsQueue
                            notifications started]. fold D. rewrite Hlin.
  set (prog := 0 + (1 - 0) * ((0 + a) / D)).
  assert (Hprog : prog == a / D) by (unfold prog; field; lra).
  assert (Hrem : D * (1 - prog) == D - a) by (rewrite Hprog; field; lra).
  split; [reflexivity|]. split; [exact Hprog|]. split.
  - intros b Hb0 Hb. unfold frame. cbn.
    destruct (Qle_bool (D * (1 - prog)) (0 + b)) eqn:E.
    + apply Qle_bool_iff in E. lra.
    + cbn. split; [discriminate | reflexivity].
  - unfold frame. cbn.
    destruct (Qle_bool (D * (1 - prog)) (0 + (D - a))) eqn:E.
    + cbn. now repeat split.
    + apply Qle_bool_false in E. lra.
Qed.

End CounterRunsFacts.

(** ** Validation before submission, on the device and in the worker *)

Section SubmissionValidation.
Import JsString Json.

Lemma missing_blank (s : string) :
  OnboardingService.missing s = negb (truthy (trim s)).
Proof.
  unfold OnboardingService.missing, jsLength.
  destruct s as [|c t]; [reflexivity|]. cbn [truthy negb orb].
  destruct (trim (String c t)); reflexivity.
Qed.

(** A text that passes the e-mail test starts with a character that is
    not white space. *)
Lemma emailRegex_first_char (s : string) :
  TextInput.emailRegex_test s = true ->
  exists c t, s = String c t /\ isWhiteSpace c = false.
Proof.
  unfold TextInput.emailRegex_test.
  destruct (split "@" s) as [|l [|d [|e r]]] eqn:E; try discriminate.
  intros H. apply andb_prop in H as [H _]. apply andb_prop in H as [H _].
  apply andb_prop in H as [Hl Hla].
  destruct (split_two "@" s l d E) as (-> & _ & _).
  destruct l as [|c l]; [discriminate|].
  exists c, (l ++ String "@" d)%string. split; [reflexivity|].
  cbn [allChars] in Hla. apply andb_prop in Hla as [Hc _].
  unfold TextInput.emailChar in Hc. apply andb_prop in Hc as [Hc _].
  now apply negb_true_iff in Hc.
Qed.

Lemma emailRegex_not_missing (s : string) :
  TextInput.emailRegex_test s = true -> OnboardingService.missing s = false.
Proof.
  intros H. destruct (emailRegex_first_char s H) as (c & t & -> & Hc).
  rewrite missing_blank. now rewrite trim_truthy.
Qed.

Lemma snoc_length {A} (l : list A) (x : A) : Nat.eqb (List.length (l ++ [x])) 0 = false.
Proof. rewrite length_app. cbn. now rewrite Nat.add_comm. Qed.

Lemma client_validation_cases
    (data : OnboardingService.OnboardingSubmitRequest) :
  let r := OnboardingService.validateOnboardingData data in
  (fst r = true <-> snd r = []) /\
  (fst r = true <->
   truthy (trim (OnboardingService.name data)) = true /\
   TextInput.emailRegex_test (OnboardingService.email data) = true /\
   truthy (trim (OnboardingService.startDate data)) = true /\
   OnboardingService.documents data <> []).
Proof.
  cbv zeta. unfold OnboardingService.validateOnboardingData. cbn [fst snd].
  rewrite !missing_blank.
  destruct (TextInput.emailRegex_test (OnboardingService.email data)) eqn:Em.
  - pose proof (emailRegex_not_missing _ Em) as Hm. rewrite missing_blank in Hm.
    rewrite Hm. cbn [negb].
    destruct (truthy (trim (OnboardingService.name data)));
      destruct (truthy (trim (OnboardingService.startDate data)));
      destruct (OnboardingService.documents data) as [|d ds];
      cbn; (split; split); try discriminate; try reflexivity;
      try (intros (? & ? & ? & ?)); try congruence; try (now repeat split).
  - destruct (truthy (trim (OnboardingService.email data)));
      destruct (truthy (trim (OnboardingService.name data)));
      destruct (truthy (trim (OnboardingService.startDate data)));
      destruct (OnboardingService.documents data) as [|d ds];
      cbn; (split; split); try discriminate; try reflexivity;
      try (intros (? & ? & ? & ?)); try congruence.
Qed.

(** X24. The check before submission passes exactly when the name and
    the start date are not blank, the e-mail passes the e-mail test and
    there is a document; it passes exactly when it lists no error. *)
Theorem client_validation_accepts_exactly
    (data : OnboardingService.OnboardingSubmitRequest) :
  let r := OnboardingService.validateOnboardingData data in
  (fst r = true <-> snd r = []) /\
  (fst r = true <->
   truthy (trim (OnboardingService.name data)) = true /\
   TextInput.emailRegex_test (OnboardingService.email data) = true /\
   truthy (trim (OnboardingService.startDate data)) = true /\
   OnboardingService.documents data <> []).
Proof. apply client_validation_cases. Qed.

Lemma trim_truthy_nonempty (s : string) : truthy (trim s) = true -> truthy s = true.
Proof. destruct s; [discriminate | reflexivity]. Qed.

Lemma worker_validation_of_payload
    (encoded : OnboardingService.DocumentFile -> option string) (submittedAt : string)
    (data : OnboardingService.OnboardingSubmitRequest) :
  exists valid errors,
    Worker.validateOnboardingData (ApiClient.payload encoded submittedAt data) =
      Normal (valid, errors) /\
    (valid = true <-> errors = []) /\
    (valid = true <->
     truthy (trim (OnboardingService.name data)) = true /\
     TextInput.emailRegex_test (OnboardingService.email data) = true /\
     truthy (OnboardingService.startDate data) = true /\
     OnboardingService.documents data <> []).
Proof.
  unfold Worker.validateOnboardingData, ApiClient.payload.
  cbn [getField lookupLast fold_left fst snd String.eqb Ascii.eqb Bool.eqb bindC andb].
  unfold Worker.checkDocuments, Worker.checkStartDate, Worker.checkEmail, Worker.checkName.
  change (negb (truthy (OnboardingService.name data)) ||
          (jsLength (trim (OnboardingService.name data)) =? 0))
    with (OnboardingService.missing (OnboardingService.name data)).
  rewrite missing_blank.
  eexists _, _. split; [reflexivity|].
  destruct (TextInput.emailRegex_test (OnboardingService.email data)) eqn:Em.
  - destruct (emailRegex_first_char _ Em) as (c & t & -> & _). cbn [truthy negb].
    destruct (truthy (trim (OnboardingService.name data)));
      destruct (truthy (OnboardingService.startDate data));
      destruct (OnboardingService.documents data) as [|d ds];
      cbn; (split; split); try discriminate; try reflexivity;
      try (intros (? & ? & ? & ?)); try congruence; try (now repeat split).
  - destruct (truthy (OnboardingService.email data));
      destruct (truthy (trim (OnboardingService.name data)));
      destruct (truthy (OnboardingService.startDate data));
      destruct (OnboardingService.documents data) as [|d ds];
      cbn; (split; split); try discriminate; try reflexivity;
      try (intros (? & ? & ? & ?)); try congruence.
Qed.

(** X25. The worker runs its own check on the payload the service
    sends: it accepts exactly when the name is not blank, the e-mail
    passes the e-mail test, the start date is not empty and there is a
    document. So a submission that passed the check on the device is
    never refused by the check of the worker. *)
Theorem worker_accepts_what_client_accepts
    (encoded : OnboardingService.DocumentFile -> option string) (submittedAt : string)
    (data : OnboardingService.OnboardingSubmitRequest) :
  exists valid errors,
    Worker.validateOnboardingData (ApiClient.payload encoded submittedAt data) =
      Normal (valid, errors) /\
    (valid = true <->
     truthy (trim (OnboardingService.name data)) = true /\
     TextInput.emailRegex_test (OnboardingService.email data) = true /\
     truthy (OnboardingService.startDate data) = true /\
     OnboardingService.documents data <> []) /\
    (fst (OnboardingService.validateOnboardingData data) = true -> valid = true).
Proof.
  destruct (worker_validation_of_payload encoded submittedAt data)
    as (valid & errors & E & _ & Hv).
  exists valid, errors. split; [exact E|]. split; [exact Hv|].
  intros Hc. apply (proj2 (client_validation_cases data)) in Hc.
  destruct Hc as (Hn & He & Hs & Hd). apply Hv.
  repeat split; try assumption. now apply trim_truthy_nonempty.
Qed.

End SubmissionValidation.

(** ** The worker and its store *)

Section WorkerStore.
Import JsString Json Worker.

Variable jsonParse : string -> option Json.

Lemma pushed_nonEmpty (errors : list string) (m : string) :
  nonEmptyMessages errors -> truthy m = true -> nonEmptyMessages (errors ++ [m]).
Proof.
  intros H Hm. apply Forall_app. split; [exact H | now repeat constructor].
Qed.

Lemma worker_messages_nonEmpty (data : Json) (valid : bool) (errors : list string) :
  validateOnboardingData data = Normal (valid, errors) ->
  nonEmptyMessages errors /\ (valid = true <-> errors = []).
Proof.
  unfold validateOnboardingData.
  destruct (getField data "name") as [n|]; [|discriminate].
  destruct (getField data "email") as [e|]; [|discriminate].
  destruct (getField data "startDate") as [s|]; [|discriminate].
  destruct (getField data "documents") as [d|]; [|discriminate].
  cbn [bindC]. intros H. injection H as <- <-. split.
  - assert (H0 : nonEmptyMessages (checkName n [])).
    { unfold checkName. destruct n as [[| | |x| |]|];
        try destruct (negb (truthy x) || _);
        try (now apply pushed_nonEmpty; [constructor|]); constructor. }
    assert (H1 : nonEmptyMessages (checkEmail e (checkName n []))).
    { unfold checkEmail. destruct e as [[| | |x| |]|];
        try destruct (negb (truthy x));
        try destruct (negb (TextInput.emailRegex_test x));
        try (now apply pushed_nonEmpty); exact H0. }
    assert (H2 : nonEmptyMessages (checkStartDate s (checkEmail e (checkName n [])))).
    { unfold checkStartDate. destruct s as [[| | |x| |]|];
        try destruct (negb (truthy x));
        try (now apply pushed_nonEmpty); exact H1. }
    unfold checkDocuments. destruct (isNonEmptyArray d); [exact H2|].
    now apply pushed_nonEmpty.
  - destruct (checkDocuments _ _); cbn; split; congruence.
Qed.

Lemma join_truthy (errors : list string) :
  errors <> [] -> nonEmptyMessages errors ->
  truthy (FilePicker.join ", " errors) = true.
Proof.
  destruct errors as [|e rest]; [congruence|]. intros _ H.
  apply Forall_inv in H. destruct e as [|c t]; [discriminate|].
  cbn [FilePicker.join]. destruct rest; reflexivity.
Qed.

(** X26. When the worker's check refuses a submission, the worker
    answers 400 and leaves its store as it was, and what the service
    returns to the screen carries the worker's messages joined by ", ",
    which is not empty. *)
Theorem refused_submission_reports_worker_messages
    (data : Json) (errors : list string) (id now : string) (kv : Kv) :
  validateOnboardingData data = Normal (false, errors) ->
  let r := handleSubmitOnboarding (Some data) id now kv in
  status (fst r) = 400 /\ snd r = kv /\
  truthy (FilePicker.join ", " errors) = true /\
  ApiClient.submitResult (ApiClient.received (fst r)) =
    JObject [("success", JBool false);
             ("error", JString (FilePicker.join ", " errors))].
Proof.
  intros V. cbv zeta. unfold handleSubmitOnboarding. rewrite V.
  cbn [fst snd status failure].
  destruct (worker_messages_nonEmpty data false errors V) as [Hne Hiff].
  assert (Hj : truthy (FilePicker.join ", " errors) = true).
  { apply join_truthy; [|exact Hne]. intros E. apply Hiff in E. discriminate. }
  repeat split; [exact Hj|].
  unfold ApiClient.received. cbn [status body andb Z.leb Z.ltb Z.compare Pos.compare
                                   Pos.compare_cont].
  cbn. unfold ApiClient.orValue. cbn [jsonTruthy]. now rewrite Hj.
Qed.

(** The outcomes of [handleSubmitOnboarding]. *)
Lemma handleSubmitOnboarding_outcome (parsed : option Json) (id now : string) (kv : Kv) :
  let r := handleSubmitOnboarding parsed id now kv in
  (snd r = kv /\ (status (fst r) = 400 \/ status (fst r) = 500)) \/
  (exists emailField onboardingData,
      status (fst r) = 201 /\
      body (fst r) = JObject [("success", JBool true); ("data", onboardingData);
                              ("message", JString "Onboarding submitted successfully")] /\
      snd r = (emailKey emailField, KvText id) :: (id, KvJson onboardingData) :: kv).
Proof.
  cbv zeta. unfold handleSubmitOnboarding.
  destruct parsed as [data|]; [|left; split; [reflexivity | now right]].
  destruct (validateOnboardingData data) as [[[|] errors]|];
    [| left; split; [reflexivity | now left] | left; split; [reflexivity | now right]].
  match goal with
  | |- context [match ?s with Normal _ => _ | Throw _ => _ end] => destruct s as [[e o]|]
  end.
  - right. now exists e, o.
  - left. split; [reflexivity | now right].
Qed.


Lemma startsWith_append (p s : string) : startsWith (p ++ s) p = true.
Proof.
  induction p as [|c p IH]; cbn.
  - now destruct s.
  - now rewrite Ascii.eqb_refl, IH.
Qed.

Lemma startsWith_eq (s p : string) :
  startsWith s p = true -> exists t, s = (p ++ t)%string.
Proof.
  revert s. induction p as [|c p IH]; intros s H.
  - now exists s.
  - destruct s as [|d s]; [discriminate|]. cbn in H.
    apply andb_prop in H as [Hc Hs]. apply Ascii.eqb_eq in Hc. subst d.
    destruct (IH s Hs) as [t ->]. now exists t.
Qed.

Lemma lastSegment_of_id (id : string) :
  noChar "/" id = true -> lastSegment ("/api/onboard/" ++ id) = id.
Proof.
  intros H. unfold lastSegment.
  change ("/api/onboard/" ++ id)%string
    with ("" ++ String "/" ("api" ++ String "/" ("onboard" ++ String "/" id)))%string.
  rewrite (split_append "/" "" _ eq_refl), (split_append "/" "api" _ eq_refl),
    (split_append "/" "onboard" _ eq_refl), (split_noChar "/" id H).
  reflexivity.
Qed.

(** X28. What a successful submission stored is what a request for its
    id gets back: after a POST to /api/onboard answered with 201, a GET
    of /api/onboard/<id> is answered with 200 and the record of the POST
    answer, for an id without ["/"] that does not start with "email:". *)
Theorem stored_submission_is_found_by_id
    (parsed : option Json) (id now now' id' : string) (kv : Kv) :
  noChar "/" id = true ->
  startsWith id "email:" = false ->
  let posted := fetch jsonParse "POST" "/api/onboard" parsed id now kv in
  status (fst posted) = 201 ->
  exists onboardingData,
    body (fst posted) = JObject [("success", JBool true); ("data", onboardingData);
                                 ("message", JString "Onboarding submitted successfully")] /\
    fetch jsonParse "GET" ("/api/onboard/" ++ id) None id' now' (snd posted) =
      ({| status := 200;
          body := JObject [("success", JBool true); ("data", onboardingData)] |},
       snd posted).
Proof.
  intros Hid Hem. cbv zeta.
  change (fetch jsonParse "POST" "/api/onboard" parsed id now kv)
    with (handleSubmitOnboarding parsed id now kv).
  intros H201.
  destruct (handleSubmitOnboarding_outcome parsed id now kv)
    as [[_ [H|H]]|(e & o & _ & Hb & Hkv)];
    try (rewrite H in H201; discriminate H201).
  exists o. split; [exact Hb|]. rewrite Hkv.
  unfold fetch. cbn [String.eqb Ascii.eqb Bool.eqb andb orb].
  assert (Hp : (("/api/onboard/" ++ id)%string =? "/api/onboard")%string = false).
  { cbn. now destruct id. }
  rewrite Hp. cbn [andb].
  rewrite (startsWith_append "/api/onboard/" id). cbn [andb].
  rewrite (lastSegment_of_id id Hid). unfold handleGetOnboarding. cbn [kvGet].
  assert (Hk : (emailKey e =? id)%string = false).
  { apply String.eqb_neq. intros E. unfold emailKey in E.
    rewrite <- E in Hem. now rewrite startsWith_append in Hem. }
  now rewrite Hk, String.eqb_refl.
Qed.


Lemma take_length (n : nat) (s : string) : (String.length (take n s) <= n)%nat.
Proof.
  revert s. induction n as [|n IH]; intros [|c s]; cbn; try lia.
  specialize (IH s). lia.
Qed.

Lemma string_length_append (a b : string) :
  String.length (a ++ b) = (String.length a + String.length b)%nat.
Proof. induction a as [|c a IH]; cbn; [reflexivity | now rewrite IH]. Qed.


End WorkerStore.

(** ** The further properties on sample inputs *)

Lemma validate_concatenated_rules_witness :
  forallb TextInput.wellTyped nameValidators = true /\
  exists m1 m2,
    TextInput.validate nameValidators "a" = Normal m1 /\
    TextInput.validate nameValidators "a" = Normal m2 /\
    TextInput.validate (nameValidators ++ nameValidators) "a" = Normal (m1 ++ m2)%list.
Proof.
  split; [reflexivity|].
  apply (validate_concatenated_rules nameValidators nameValidators "a"); reflexivity.
Defined.

Lemma handleBlur_reports_validity_witness :
  exists st' ok,
    TextInput.handleBlur nameField TextInput.initialState =
      Normal (st', [TextInput.onValidate ok]) /\
    TextInput.isTouched st' = true /\ TextInput.isFocused st' = false /\
    TextInput.internalValue st' = "" /\
    TextInput.errors st' = failingMessages nameValidators "" /\
    (ok = true <->
     forall rule, In rule nameValidators -> TextInput.ruleFails "" rule = false).
Proof.
  apply (handleBlur_reports_validity nameField TextInput.initialState). reflexivity.
Defined.

Lemma uncontrolled_session_state_witness :
  exists st calls,
    TextInputEvents.run nameField TextInput.initialState
      [TextInputEvents.change "a"; TextInputEvents.blur] = Normal (st, calls) /\
    TextInput.internalValue st = "a" /\
    TextInput.isTouched st = true /\
    TextInput.errors st =
      (if TextInput.isTouched st
       then failingMessages nameValidators (TextInput.internalValue st) else []).
Proof.
  apply (uncontrolled_session_state nameField
           [TextInputEvents.change "a"; TextInputEvents.blur]); reflexivity.
Defined.

Lemma parseDate_never_accepts_two_digit_year_witness :
  exists n year,
    JsDate.midnight 2024 2 29 = JsDate.dayStart n /\
    Z.abs (n * JsDate.msPerDay) <= JsDate.maxTime /\
    JsDate.getFullYear (JsDate.midnight 2024 2 29) = Some year /\
    ~ (0 <= year <= 99) /\ (CalendarPicker.DD_MM_YYYY = CalendarPicker.YYYY_MM_DD -> 100 <= year).
Proof.
  apply (parseDate_never_accepts_two_digit_year CalendarPicker.DD_MM_YYYY "29/02/2024").
  vm_compute. reflexivity.
Defined.

Lemma formatDate_canonical_form_witness :
  CalendarPicker.parseDate CalendarPicker.DD_MM_YYYY "1/2/2024x" =
    Some (JsDate.midnight 2024 2 1) /\
  CalendarPicker.parseDate CalendarPicker.DD_MM_YYYY
    (CalendarPicker.formatDate CalendarPicker.DD_MM_YYYY (JsDate.midnight 2024 2 1)) =
    Some (JsDate.midnight 2024 2 1).
Proof.
  assert (H : CalendarPicker.parseDate CalendarPicker.DD_MM_YYYY "1/2/2024x" =
              Some (JsDate.midnight 2024 2 1)) by (vm_compute; reflexivity).
  split; [exact H|].
  exact (formatDate_canonical_form CalendarPicker.DD_MM_YYYY "1/2/2024x" _ H).
Defined.



Lemma handleRemoveFile_keeps_limits_witness :
  let r := FilePicker.handleRemoveFile noFormat FilePicker.defaultProps twoFiles 0 in
  FilePicker.files (fst r) = map FilePicker.selectedOf [smallFile "b.png"] /\
  FileLimits.withinLimits FilePicker.defaultProps (FilePicker.files (fst r)) /\
  FilePicker.error (fst r) = "".
Proof.
  cbv zeta.
  destruct (handleRemoveFile_keeps_limits noFormat FilePicker.defaultProps twoFiles 0)
    as (Hf & _ & _ & Hw & He).
  - repeat constructor; vm_compute; discriminate.
  - split; [vm_compute; discriminate|]. split; [|vm_compute; discriminate].
    repeat constructor; vm_compute; discriminate.
  - split; [reflexivity|]. split; [exact Hw | exact He].
Defined.

Lemma uppercase_extension_pattern_never_matches_witness :
  FilePicker.isFileTypeAllowed upperCasePdf None "scan.PDF" = false /\
  FilePicker.isFileTypeAllowed upperCasePdf None "scan.pdf" = false.
Proof.
  split; apply (uppercase_extension_pattern_never_matches upperCasePdf "PDF");
    try reflexivity; vm_compute; discriminate.
Defined.

Lemma linear_progress_bounded_and_monotone_witness :
  let c := CounterTimer.runEvents identityEase demoCounter CounterTimer.mount
             [CounterTimer.start; CounterTimer.tick 5000; CounterTimer.stop;
              CounterTimer.tick 1000; CounterTimer.start] in
  (0 <= CounterTimer.progress c)%Q /\ (CounterTimer.progress c <= 1)%Q /\
  (CounterTimer.progress c <=
   CounterTimer.progress (CounterTimer.frame identityEase demoCounter 1000 c))%Q /\
  (CounterTimer.progress (CounterTimer.frame identityEase demoCounter 1000 c) <= 1)%Q.
Proof.
  apply (linear_progress_bounded_and_monotone identityEase demoCounter
           [CounterTimer.start; CounterTimer.tick 5000; CounterTimer.stop;
            CounterTimer.tick 1000; CounterTimer.start] 1000).
  - reflexivity.
  - repeat constructor; vm_compute; discriminate.
  - vm_compute. discriminate.
Defined.

Lemma undisturbed_run_completes_once_witness :
  let c := CounterTimer.runEvents identityEase demoCounter CounterTimer.mount
             [CounterTimer.start; CounterTimer.tick 10000;
              CounterTimer.deliver; CounterTimer.deliver] in
  CounterTimer.state c = CounterTimer.completed /\
  CounterTimer.progress c = 1%Q /\ CounterTimer.animation c = None /\
  CounterTimer.jsQueue c = [] /\
  CounterTimer.notifications c =
    [{| CounterTimer.ofRun := 0; CounterTimer.latestRun := 0 |}].
Proof.
  apply (undisturbed_run_completes_once identityEase demoCounter CounterTimer.mount 10000).
  - reflexivity.
  - left. reflexivity.
  - reflexivity.
  - vm_compute. discriminate.
Defined.

Lemma resumed_run_ends_after_remaining_time_witness :
  let c := CounterTimer.runEvents identityEase demoCounter CounterTimer.mount
             [CounterTimer.start; CounterTimer.tick 4000; CounterTimer.stop;
              CounterTimer.start] in
  CounterTimer.animation
    (CounterTimer.frame identityEase demoCounter
       (CounterTimer.validDuration demoCounter * 1000 - 4000) c) = None /\
  CounterTimer.progress
    (CounterTimer.frame identityEase demoCounter
       (CounterTimer.validDuration demoCounter * 1000 - 4000) c) = 1%Q.
Proof.
  cbv zeta.
  destruct (resumed_run_ends_after_remaining_time identityEase demoCounter 4000)
    as (_ & _ & _ & Ha & Hp & _).
  - reflexivity.
  - vm_compute. reflexivity.
  - vm_compute. reflexivity.
  - split; [exact Ha | exact Hp].
Defined.

Lemma refused_submission_reports_worker_messages_witness :
  let r := Worker.handleSubmitOnboarding (Some (Json.JObject [])) "onboard_1" "now" [] in
  Worker.status (fst r) = 400 /\ snd r = [] /\
  ApiClient.submitResult (ApiClient.received (fst r)) =
    Json.JObject
      [("success", Json.JBool false);
       ("error", Json.JString
          "Name is required, Email is required, Start date is required, At least one document is required")].
Proof.
  cbv zeta.
  destruct (refused_submission_reports_worker_messages (Json.JObject [])
              ["Name is required"; "Email is required"; "Start date is required";
               "At least one document is required"] "onboard_1" "now" [] eq_refl)
    as (Hs & Hk & _ & Hr).
  split; [exact Hs|]. split; [exact Hk | exact Hr].
Defined.

Lemma stored_submission_is_found_by_id_witness :
  let posted := Worker.fetch noParse "POST" "/api/onboard" (Some samplePayload)
                  "onboard_1" "2025-05-01T00:00:01.000Z" [] in
  Worker.status (fst posted) = 201 /\
  exists onboardingData,
    Worker.body (fst posted) =
      Json.JObject [("success", Json.JBool true); ("data", onboardingData);
                    ("message", Json.JString "Onboarding submitted successfully")] /\
    Worker.fetch noParse "GET" "/api/onboard/onboard_1" None "onboard_2" "later"
      (snd posted) =
      ({| Worker.status := 200;
          Worker.body := Json.JObject [("success", Json.JBool true);
                                       ("data", onboardingData)] |},
       snd posted).
Proof.
  cbv zeta.
  assert (H : Worker.status (fst (Worker.fetch noParse "POST" "/api/onboard"
                (Some samplePayload) "onboard_1" "2025-05-01T00:00:01.000Z" [])) = 201)
    by (vm_compute; reflexivity).
  split; [exact H|].
  apply (stored_submission_is_found_by_id noParse (Some samplePayload) "onboard_1"
           "2025-05-01T00:00:01.000Z" "later" "onboard_2" []).
  - reflexivity.
  - reflexivity.
  - exact H.
Defined.
